(** * eca-recommend: the recommendation engine of [core.go], embedded and verified

    The Go package exports one function, [RecommendAlgorithms], and one helper,
    [detectFileCategory].  Both are embedded below line by line.

    Conventions of the embedding:
    - [float64] is Rocq's primitive binary64 float ([PrimFloat.float]): [+],
      [-], [*], [/] round to nearest-even, and decimal literals denote the
      nearest binary64 value, as Go's typed constants do.  Go lets a compiler
      fuse [x*y + z] into one operation rounded once (it does on arm64 and
      with GOAMD64=v3, not on plain amd64); whether each such place of the
      scoring is fused is a parameter, [Fusion].
    - [int] and [int64] are [Z]; the only arithmetic the code does on them is
      comparison with zero and conversion to [float64].
    - [map[string]float64] is stdpp's [gmap string float].  Go leaves the order
      of [range] over a map unspecified, so the two [range] loops that pick the
      winners take the order the runtime happened to use as an argument.
    - [*os.File] is [option File]; a [File] records what each method the code
      calls on the handle answers.
    - the functions of Go's standard library that the code calls and whose
      results depend on Unicode tables or on the host ([strings.ToLower],
      [strings.TrimSpace], [http.DetectContentType], [mime.TypeByExtension])
      are taken as a parameter, [GoLib], which also carries the compiler's
      [Fusion]. *)

From Stdlib Require Import ZArith String Ascii List Bool Floats Uint63 Lia.
From stdpp Require Import base option list gmap strings.

Set Warnings "-inexact-float".
Local Open Scope Z_scope.
Local Open Scope string_scope.

(** ** Go values the code handles *)

(** [float64(n)] for a non-negative [int64]: exact below 2^53, rounded to
    nearest-even above. *)
Definition float64_of_int (n : Z) : float := PrimFloat.of_uint63 (Uint63.of_Z n).

(** Go's [x > y] and [x < y] on [float64]: false as soon as one side is NaN. *)
Definition fgt (x y : float) : bool := PrimFloat.ltb y x.
Definition flt (x y : float) : bool := PrimFloat.ltb x y.
Definition fle (x y : float) : bool := PrimFloat.leb x y.

(** [math.Inf(-1)] *)
Definition math_Inf_neg : float := PrimFloat.neg_infinity.

(** The fused multiply-add: [x*y + z] computed exactly and rounded once.
    With both factors finite and non-zero the exact product is the product
    of the mantissas at the sum of the exponents: a finite [z] is added to it
    by the addition of the specification, which rounds the exact sum once; an
    infinite or NaN [z] is the result; a zero [z] leaves the product, rounded.
    In every other case the product is exact as it is (zero, infinite or
    NaN). *)
Definition fma_SF (x y z : spec_float) : spec_float :=
  match x, y with
  | S754_finite sx mx ex, S754_finite sy my ey =>
      match z with
      | S754_finite _ _ _ =>
          SFadd prec emax (S754_finite (xorb sx sy) (mx * my) (ex + ey)) z
      | S754_infinity _ | S754_nan => z
      | S754_zero _ => SFmul prec emax x y
      end
  | _, _ => SFadd prec emax (SFmul prec emax x y) z
  end.

Definition fma (x y z : float) : float :=
  SF2Prim (fma_SF (Prim2SF x) (Prim2SF y) (Prim2SF z)).

(** How a build evaluates [x*y + u*v]: both products rounded, or one of them
    fused into the addition. *)
Inductive sum_fusion : Type :=
| round_both
| fuse_first
| fuse_second.

(** The four places of the scoring where a product meets a sum, and what the
    build does at each: line 88 ([attention*2.5 + luhW*1.2]), lines 91 and 93
    ([attention*0.6 + 2.0], [attention*0.6 + 0.6]), line 95
    ([score += luhW * 0.6]) and line 103 ([score += attention * 0.8]). *)
Record Fusion : Type := mkFusion {
  fuse_gcmsiv : sum_fusion;
  fuse_gcm_bonus : bool;
  fuse_gcm_recency : bool;
  fuse_xchacha : bool
}.

(** A build that rounds every operation (plain amd64), and one that fuses
    wherever it can (arm64). *)
Definition no_fusion : Fusion :=
  {| fuse_gcmsiv := round_both; fuse_gcm_bonus := false; fuse_gcm_recency := false;
     fuse_xchacha := false |}.

Definition full_fusion : Fusion :=
  {| fuse_gcmsiv := fuse_second; fuse_gcm_bonus := true; fuse_gcm_recency := true;
     fuse_xchacha := true |}.

(** [x*y + z], [z + x*y] and [x*y + u*v] as the build evaluates them. *)
Definition mulAdd (fused : bool) (x y z : float) : float :=
  if fused then fma x y z else (x * y + z)%float.

Definition addMul (fused : bool) (z x y : float) : float :=
  if fused then fma x y z else (z + x * y)%float.

Definition mulAddMul (how : sum_fusion) (x y u v : float) : float :=
  match how with
  | round_both => (x * y + u * v)%float
  | fuse_first => fma x y (u * v)%float
  | fuse_second => fma u v (x * y)%float
  end.

(** The errors [ReadAt] can report. *)
Inductive io_error : Type :=
| io_EOF
| io_failure (msg : string).

(** An open handle, seen through the three methods the code calls on it. *)
Record File : Type := mkFile {
  Name : string;
  (** [Stat()]: [Some size] for [fi.Size()], [None] when [Stat] fails *)
  Stat : option Z;
  (** [ReadAt(buf, off)] with [len(buf) = n]: the bytes read and the error *)
  ReadAt : nat -> Z -> list Byte.byte * option io_error
}.

(** A regular file of the given content: [Stat] gives its length and
    [ReadAt] returns [io.EOF] with a short read. *)
Definition regularFile (name : string) (content : list Byte.byte) : File :=
  {| Name := name;
     Stat := Some (Z.of_nat (length content));
     ReadAt := fun n off =>
       let data := take n (drop (Z.to_nat off) content) in
       (data, if (length data <? n)%nat then Some io_EOF else None) |}.

(** A regular file of [size] bytes of which [head] spells out the first 512,
    all that the code reads. *)
Definition regularFileOfSize (name : string) (head : list Byte.byte) (size : Z) : File :=
  {| Name := name;
     Stat := Some size;
     ReadAt := fun n off =>
       let data := take n (drop (Z.to_nat off) head) in
       (data, if (length data <? n)%nat then Some io_EOF else None) |}.

(** A handle on which every operation fails (closed, or a device error). *)
Definition brokenFile (name msg : string) : File :=
  {| Name := name; Stat := None; ReadAt := fun _ _ => ([], Some (io_failure msg)) |}.

(** What the Go installation decides: the standard-library functions the
    code calls, and the compiler's choice at each [x*y + z]. *)
Record GoLib : Type := mkGoLib {
  strings_ToLower : string -> string;
  strings_TrimSpace : string -> string;
  http_DetectContentType : list Byte.byte -> string;
  mime_TypeByExtension : string -> string;
  float_fusion : Fusion
}.

(** ** Byte-level string functions, as the Go library defines them *)

(** [strings.HasPrefix(s, prefix)] *)
Definition strings_HasPrefix (s pre : string) : bool := String.prefix pre s.

(** [strings.Contains(s, substr)] *)
Fixpoint strings_Contains (s sub : string) : bool :=
  String.prefix sub s ||
  match s with
  | EmptyString => false
  | String _ rest => strings_Contains rest sub
  end.

(** The loop of [filepath.Ext] on a Unix path, run over the reversed path:
    walk back from the last byte, stop at a separator, return from the first
    dot met. *)
Fixpoint ext_scan (rev_path : list ascii) (suffix : list ascii) : list ascii :=
  match rev_path with
  | [] => []
  | c :: before =>
      if Ascii.eqb c "/"%char then []
      else if Ascii.eqb c "."%char then c :: suffix
      else ext_scan before (c :: suffix)
  end.

Definition filepath_Ext (path : string) : string :=
  string_of_list_ascii (ext_scan (rev (list_ascii_of_string path)) []).

(** ** The data model of [core.go] *)

Record Prefs : Type := mkPrefs {
  Tradeoff : string;
  AssumeAESNI : bool;
  ForceDetectExt : bool
}.

(** [Reason] is built by [fmt.Sprintf]; the embedding keeps which of the two
    format strings was used and its arguments. *)
Inductive reason : Type :=
| reason_empty
| reason_skip (category : string)
| reason_chosen (enc : string) (encScore : float) (comp : string) (compScore : float).

Record Recommendation : Type := mkRecommendation {
  Encryption : string;
  Compression : string;
  ZstdLevel : Z;
  SkipCompression : bool;
  ScoreBreakdown : gmap string float;
  Reason : reason;
  DetectedMime : string;
  DetectedCategory : string
}.

Definition error : Type := string.

(** [var rec Recommendation] followed by [rec.ScoreBreakdown = make(...)]. *)
Definition rec_zero : Recommendation :=
  {| Encryption := ""; Compression := ""; ZstdLevel := 0; SkipCompression := false;
     ScoreBreakdown := ∅; Reason := reason_empty;
     DetectedMime := ""; DetectedCategory := "" |}.

Definition encCandidates : list string := ["aes256gcm"; "aes256gcmsiv"; "xchacha20poly1305"].
Definition compCandidates : list string := ["zip"; "lzma2"; "lz4"; "zstd"].

(** ** [detectFileCategory] (core.go, lines 251-288) *)

Definition text_extensions : list string :=
  [".txt"; ".md"; ".csv"; ".log"; ".json"; ".xml"; ".yaml"; ".yml";
   ".go"; ".py"; ".c"; ".cpp"; ".java"].

Definition str_in (s : string) (l : list string) : bool := existsb (String.eqb s) l.

(** The [switch ext] of the last [else] branch. *)
Definition ext_category (ext : string) : string :=
  if str_in ext text_extensions then "text"
  else if String.eqb ext ".pdf" then "archive"
  else "binary".

(** The [if / else if] chain over the lowered MIME string: [Some c] when one
    of the five MIME tests fires, [None] when control reaches the last
    [else]. *)
Definition mime_category (low : string) : option string :=
  if strings_HasPrefix low "text/" then Some "text"
  else if strings_HasPrefix low "image/" then Some "image"
  else if strings_HasPrefix low "audio/" then Some "audio"
  else if strings_HasPrefix low "video/" then Some "video"
  else if strings_Contains low "zip" || strings_Contains low "compressed"
          || strings_Contains low "x-rar" || strings_Contains low "7z"
          || strings_Contains low "tar" then Some "archive"
  else None.

Section Classifier.
Variable lib : GoLib.

Definition detectFileCategory (f : File) : string * string :=
  let '(sniff, err) := ReadAt f 512 0 in
  match err with
  | Some (io_failure _) => ("application/octet-stream", "binary")
  | _ =>
      let mimeStr := http_DetectContentType lib sniff in
      let ext := strings_ToLower lib (filepath_Ext (Name f)) in
      let mimeStr :=
        if negb (String.eqb ext "") then
          let m := mime_TypeByExtension lib ext in
          if negb (String.eqb m "") then m else mimeStr
        else mimeStr in
      let low := strings_ToLower lib mimeStr in
      let category :=
        match mime_category low with
        | Some c => c
        | None => ext_category ext
        end in
      (mimeStr, category)
  end.
End Classifier.

(** ** [RecommendAlgorithms] (core.go, lines 34-248) *)

Local Open Scope float_scope.

(** Lines 43-52: the size the caller gave, else the size [Stat] reports,
    else 0; never negative. *)
Definition effectiveSize (f : File) (sizeBytes : Z) : Z :=
  let sizeBytes :=
    if (sizeBytes <=? 0)%Z then
      match Stat f with
      | Some size => size
      | None => 0%Z
      end
    else sizeBytes in
  if (sizeBytes <? 0)%Z then 0%Z else sizeBytes.

(** Lines 60-63. *)
Definition normTradeoff (lib : GoLib) (prefs : Prefs) : string :=
  let tradeoff := strings_TrimSpace lib (strings_ToLower lib (Tradeoff prefs)) in
  if negb (String.eqb tradeoff "speed") && negb (String.eqb tradeoff "ratio")
     && negb (String.eqb tradeoff "balanced")
  then "balanced" else tradeoff.

(** Lines 66-70. *)
Definition clampAttention (attention : float) : float :=
  if flt attention 0 then 0
  else if fgt attention 1 then 1
  else attention.

(** Lines 71-73. *)
Definition clampHours (lastUsedHours : Z) : Z :=
  if (lastUsedHours <? 0)%Z then 0%Z else lastUsedHours.

(** Line 75. *)
Definition sizeMB_of (sizeBytes : Z) : float :=
  float64_of_int sizeBytes / (1024.0 * 1024.0).

(** Lines 76-79. *)
Definition luhW_of (lastUsedHours : Z) : float :=
  let luhW := float64_of_int lastUsedHours / (24.0 * 7.0) in
  if fgt luhW 3 then 3 else luhW.

(** What the scoring reads: the locals after lines 43-79, and the way the
    build evaluates the products met by a sum. *)
Record Signals : Type := mkSignals {
  sg_mime : string;
  sg_category : string;
  sg_tradeoff : string;
  sg_attention : float;
  sg_sizeMB : float;
  sg_luhW : float;
  sg_aesni : bool;
  sg_fusion : Fusion
}.

Definition preprocess (lib : GoLib) (f : File) (lastUsedHours : Z) (attention : float)
    (sizeBytes : Z) (prefs : Prefs) : Signals :=
  let sizeBytes := effectiveSize f sizeBytes in
  let '(mimeStr, category) := detectFileCategory lib f in
  {| sg_mime := mimeStr;
     sg_category := category;
     sg_tradeoff := normTradeoff lib prefs;
     sg_attention := clampAttention attention;
     sg_sizeMB := sizeMB_of sizeBytes;
     sg_luhW := luhW_of (clampHours lastUsedHours);
     sg_aesni := AssumeAESNI prefs;
     sg_fusion := float_fusion lib |}.

(** Lines 86-104: the body of the encryption loop for candidate [c]. *)
Definition encScore (sg : Signals) (c : string) : float :=
  let fusion := sg_fusion sg in
  let score := 0.1 in
  if String.eqb c "aes256gcmsiv" then
    score + mulAddMul (fuse_gcmsiv fusion) (sg_attention sg) 2.5 (sg_luhW sg) 1.2
  else if String.eqb c "aes256gcm" then
    let score :=
      if sg_aesni sg then score + mulAdd (fuse_gcm_bonus fusion) (sg_attention sg) 0.6 2.0
      else score + mulAdd (fuse_gcm_bonus fusion) (sg_attention sg) 0.6 0.6 in
    addMul (fuse_gcm_recency fusion) score (sg_luhW sg) 0.6
  else if String.eqb c "xchacha20poly1305" then
    let score := if fgt (sg_sizeMB sg) 100 then score + 3.0 else score in
    let score := if String.eqb (sg_tradeoff sg) "speed" then score + 1.2 else score in
    addMul (fuse_xchacha fusion) score (sg_attention sg) 0.8
  else score.

(** Lines 126-130. *)
Definition isAlreadyCompressed (category : string) : bool :=
  str_in category ["image"; "video"; "audio"; "archive"].

(** Lines 133-185: the body of the compression loop for candidate [c]. *)
Definition compScore (sg : Signals) (c : string) : float :=
  let tradeoff := sg_tradeoff sg in
  let sizeMB := sg_sizeMB sg in
  let score := 0.1 in
  let score :=
    if isAlreadyCompressed (sg_category sg) then
      if String.eqb c "lz4" then score + 2.0 else score - 1.2
    else if String.eqb c "lzma2" then
      let score :=
        if String.eqb tradeoff "ratio" then score + 3.0
        else if String.eqb tradeoff "balanced" then score + 1.6
        else score + 0.6 in
      if fgt sizeMB 100 then score + 1.2 else score
    else if String.eqb c "zstd" then
      let score :=
        if String.eqb tradeoff "ratio" then score + 2.5
        else if String.eqb tradeoff "balanced" then score + 2.0
        else score + 1.2 in
      if fgt sizeMB 50 then score + 1.0 else score
    else if String.eqb c "lz4" then
      let score :=
        if String.eqb tradeoff "speed" then score + 2.2
        else if String.eqb tradeoff "balanced" then score + 1.0
        else score + 0.3 in
      if flt sizeMB 10 then score + 0.6 else score
    else if String.eqb c "zip" then
      let score := if flt sizeMB 10 then score + 1.2 else score in
      if String.eqb tradeoff "speed" then score + 0.6 else score
    else score in
  if fgt sizeMB 500 && (String.eqb c "zstd" || String.eqb c "lz4")
  then score + 1.2 else score.

(** The two scoring loops share their shape: for each candidate, in slice
    order, store the score in the family's map and, under the prefixed key,
    in [rec.ScoreBreakdown]. *)
Definition scoreLoop (prefix : string) (score : string -> float) (candidates : list string)
    (scores breakdown : gmap string float) : gmap string float * gmap string float :=
  fold_left
    (fun st c => (<[c := score c]> st.1, <[prefix ++ c := score c]> st.2))
    candidates (scores, breakdown).

(** The map literals of lines 83 and 125. *)
Definition zeroScores (candidates : list string) : gmap string float :=
  list_to_map ((fun c => (c, 0)) <$> candidates).

(** Lines 110-117 and 190-197: [for k, v := range scores] keeping the first
    strictly greater value; [order] is the order in which this [range]
    visits the keys. *)
Definition pickStep (scores : gmap string float) (best : string * float) (k : string)
    : string * float :=
  match scores !! k with
  | Some v => if fgt v best.2 then (k, v) else best
  | None => best
  end.

Definition rangePick (scores : gmap string float) (order : list string) : string * float :=
  fold_left (pickStep scores) order ("", math_Inf_neg).

(** Lines 118-120 and 198-200. *)
Definition orDefault (best fallback : string) : string :=
  if String.eqb best "" then fallback else best.

(** Lines 214-245. *)
Definition zstdLevel (tradeoff : string) (sizeMB : float) : Z :=
  let level :=
    if String.eqb tradeoff "speed" then 1%Z
    else if String.eqb tradeoff "balanced" then
      if fgt sizeMB 200 then 3%Z
      else if fgt sizeMB 50 then 5%Z
      else 3%Z
    else if String.eqb tradeoff "ratio" then
      if fgt sizeMB 500 then 12%Z
      else if fgt sizeMB 200 then 9%Z
      else 7%Z
    else 3%Z in
  let level := if (level <? 1)%Z then 1%Z else level in
  if (level >? 22)%Z then 22%Z else level.

(** Line 203: the skip test. *)
Definition skipTest (sg : Signals) (bestComp : string) (bestCompScore : float) : bool :=
  isAlreadyCompressed (sg_category sg)
  && (flt bestCompScore 0.5
      || (String.eqb bestComp "lz4" && negb (String.eqb (sg_tradeoff sg) "ratio"))).

Section Engine.
Variable lib : GoLib.
(** The orders in which the two [range] loops over the score maps run. *)
Variables encOrder compOrder : list string.

Definition RecommendAlgorithms (file : option File) (lastUsedHours : Z)
    (attention : float) (sizeBytes : Z) (prefs : Prefs)
    : Recommendation * option error :=
  match file with
  | None => (rec_zero, Some "file is nil")
  | Some f =>
      let sg := preprocess lib f lastUsedHours attention sizeBytes prefs in
      let '(encScores, breakdown) :=
        scoreLoop "enc_" (encScore sg) encCandidates (zeroScores encCandidates) ∅ in
      let '(bestEnc, bestEncScore) := rangePick encScores encOrder in
      let bestEnc := orDefault bestEnc "aes256gcm" in
      let '(compScores, breakdown) :=
        scoreLoop "comp_" (compScore sg) compCandidates (zeroScores compCandidates)
          breakdown in
      let '(bestComp, bestCompScore) := rangePick compScores compOrder in
      let bestComp := orDefault bestComp "lz4" in
      let skip := skipTest sg bestComp bestCompScore in
      let compression := if skip then "none" else bestComp in
      ({| Encryption := bestEnc;
          Compression := compression;
          ZstdLevel :=
            if String.eqb compression "zstd"
            then zstdLevel (sg_tradeoff sg) (sg_sizeMB sg) else 0%Z;
          SkipCompression := skip;
          ScoreBreakdown := breakdown;
          Reason :=
            if skip then reason_skip (sg_category sg)
            else reason_chosen bestEnc bestEncScore compression bestCompScore;
          DetectedMime := sg_mime sg;
          DetectedCategory := sg_category sg |}, None)
  end.

(** The winners of the two [range] loops, before the skip policy. *)
Definition encWinner (sg : Signals) : string * float :=
  let '(encScores, _) :=
    scoreLoop "enc_" (encScore sg) encCandidates (zeroScores encCandidates) ∅ in
  let '(bestEnc, bestEncScore) := rangePick encScores encOrder in
  (orDefault bestEnc "aes256gcm", bestEncScore).

Definition compWinner (sg : Signals) : string * float :=
  let '(compScores, _) :=
    scoreLoop "comp_" (compScore sg) compCandidates (zeroScores compCandidates) ∅ in
  let '(bestComp, bestCompScore) := rangePick compScores compOrder in
  (orDefault bestComp "lz4", bestCompScore).
End Engine.

(** ** A host to run the code on

    Closed examples need the library parameter filled in.  [hostLib] is Go's
    library on a host without a system MIME database, built by a compiler
    that fuses nothing, restricted to what the examples exercise:
    - [strings.ToLower] and [strings.TrimSpace] on ASCII-only strings (Go's
      fast paths; bytes above 0x7F, which send Go to its Unicode tables, are
      left alone here);
    - [mime.TypeByExtension] as the built-in table of [mime/type.go];
    - [http.DetectContentType] with the exact-prefix signatures of
      [net/http/sniff.go] and its final text test; the masked, HTML and MP4
      signatures are left out, so data whose first non-blank byte is [<], or
      that starts with [RIFF], [FORM], [ID3], [OggS], [MThd] or a byte-order
      mark, or carries [ftyp] at offset 4, is outside this model.  Every
      signature of [sniff.go] before the text test needs at least one byte,
      and the text test accepts any data without a binary byte: empty data is
      text/plain; charset=utf-8, as the first entry of Go's own test table
      records. *)
Module Host.

Definition lower_ascii (c : ascii) : ascii :=
  let n := N_of_ascii c in
  if (65 <=? n)%N && (n <=? 90)%N then ascii_of_N (n + 32) else c.

Fixpoint ToLower (s : string) : string :=
  match s with
  | EmptyString => EmptyString
  | String c rest => String (lower_ascii c) (ToLower rest)
  end.

(** [asciiSpace]: tab, newline, vertical tab, form feed, carriage return,
    space. *)
Definition is_space (c : ascii) : bool :=
  let n := N_of_ascii c in
  ((9 <=? n)%N && (n <=? 13)%N) || (n =? 32)%N.

Fixpoint trim_left (l : list ascii) : list ascii :=
  match l with
  | c :: rest => if is_space c then trim_left rest else l
  | [] => []
  end.

Definition TrimSpace (s : string) : string :=
  string_of_list_ascii
    (rev (trim_left (rev (trim_left (list_ascii_of_string s))))).

Definition builtinTypesLower : list (string * string) :=
  [(".avif", "image/avif");
   (".css", "text/css; charset=utf-8");
   (".gif", "image/gif");
   (".htm", "text/html; charset=utf-8");
   (".html", "text/html; charset=utf-8");
   (".jpeg", "image/jpeg");
   (".jpg", "image/jpeg");
   (".js", "text/javascript; charset=utf-8");
   (".json", "application/json");
   (".mjs", "text/javascript; charset=utf-8");
   (".pdf", "application/pdf");
   (".png", "image/png");
   (".svg", "image/svg+xml");
   (".wasm", "application/wasm");
   (".webp", "image/webp");
   (".xml", "text/xml; charset=utf-8")].

Fixpoint assoc (k : string) (l : list (string * string)) : string :=
  match l with
  | [] => ""
  | (k', v) :: rest => if String.eqb k k' then v else assoc k rest
  end.

Definition TypeByExtension (ext : string) : string :=
  assoc (ToLower ext) builtinTypesLower.

Fixpoint bytes_HasPrefix (data pre : list Byte.byte) : bool :=
  match pre, data with
  | [], _ => true
  | p :: pre', d :: data' => Byte.eqb p d && bytes_HasPrefix data' pre'
  | _ :: _, [] => false
  end.

Definition exactSigs : list (list Byte.byte * string) :=
  let s := list_byte_of_string in
  ([(s "%PDF-", "application/pdf");
   (s "%!PS-Adobe-", "application/postscript");
   ([Byte.x00; Byte.x00; Byte.x01; Byte.x00], "image/x-icon");
   ([Byte.x00; Byte.x00; Byte.x02; Byte.x00], "image/x-icon");
   (s "BM", "image/bmp");
   (s "GIF87a", "image/gif");
   (s "GIF89a", "image/gif");
   ((Byte.x89 :: s "PNG") ++ [Byte.x0d; Byte.x0a; Byte.x1a; Byte.x0a], "image/png");
   ([Byte.xff; Byte.xd8; Byte.xff], "image/jpeg");
   ([Byte.x1a; Byte.x45; Byte.xdf; Byte.xa3], "video/webm");
   ([Byte.x00; Byte.x01; Byte.x00; Byte.x00], "font/ttf");
   (s "OTTO", "font/otf");
   (s "ttcf", "font/collection");
   (s "wOFF", "font/woff");
   (s "wOF2", "font/woff2");
   ([Byte.x1f; Byte.x8b; Byte.x08], "application/x-gzip");
   (s "PK" ++ [Byte.x03; Byte.x04], "application/zip");
   (s "Rar!" ++ [Byte.x1a; Byte.x07; Byte.x00], "application/x-rar-compressed");
   (s "Rar!" ++ [Byte.x1a; Byte.x07; Byte.x01; Byte.x00], "application/x-rar-compressed");
   (Byte.x00 :: s "asm", "application/wasm")])%list.

(** The bytes [textSig] takes as a sign of binary data. *)
Definition is_binary_byte (b : Byte.byte) : bool :=
  let n := Byte.to_N b in
  (n <=? 8)%N || (n =? 11)%N || ((14 <=? n)%N && (n <=? 26)%N)
  || ((28 <=? n)%N && (n <=? 31)%N).

Fixpoint first_match (data : list Byte.byte) (sigs : list (list Byte.byte * string))
    : option string :=
  match sigs with
  | [] => None
  | (pre, ct) :: rest =>
      if bytes_HasPrefix data pre then Some ct else first_match data rest
  end.

Definition DetectContentType (data : list Byte.byte) : string :=
  let data := take 512 data in
  match first_match data exactSigs with
  | Some ct => ct
  | None =>
      if existsb is_binary_byte data then "application/octet-stream"
      else "text/plain; charset=utf-8"
  end.

End Host.

Definition hostLib : GoLib :=
  {| strings_ToLower := Host.ToLower;
     strings_TrimSpace := Host.TrimSpace;
     http_DetectContentType := Host.DetectContentType;
     mime_TypeByExtension := Host.TypeByExtension;
     float_fusion := no_fusion |}.

(** The same host, built by a compiler that fuses every [x*y + z]. *)
Definition fusingLib : GoLib :=
  {| strings_ToLower := Host.ToLower;
     strings_TrimSpace := Host.TrimSpace;
     http_DetectContentType := Host.DetectContentType;
     mime_TypeByExtension := Host.TypeByExtension;
     float_fusion := full_fusion |}.

(** ** The quantities the specification names *)

Definition fmin (x y : float) : float := if flt y x then y else x.
Definition fmax (x y : float) : float := if fgt y x then y else x.

(** "attention clamped to [0,1]" *)
Definition clamp01 (x : float) : float := fmin (fmax x 0) 1.

(** "w = min(max(lastUsedHours,0)/168, 3)" *)
Definition weeklyWeight (lastUsedHours : Z) : float :=
  fmin (float64_of_int (Z.max lastUsedHours 0) / 168) 3.

(** "sizeMB = sizeBytes/1048576 after the size fallback" *)
Definition sizeInMB (f : File) (sizeBytes : Z) : float :=
  float64_of_int (effectiveSize f sizeBytes) / 1048576.

(** "+x if cond" *)
Definition bonus (cond : bool) (x : float) : float := if cond then x else 0.

(** "the category is one of image, video, audio, archive" *)
Definition alreadyCompressed (category : string) : bool :=
  bool_decide (category ∈ ["image"; "video"; "audio"; "archive"]).

(** A row of the tradeoff table, in the order ratio / balanced / speed. *)
Definition byTradeoff (t : string) (ratio balanced speed : float) : float :=
  if String.eqb t "ratio" then ratio
  else if String.eqb t "balanced" then balanced
  else if String.eqb t "speed" then speed
  else 0.

(** The level table of the specification, as a relation between the
    tradeoff, the size and the level. *)
Definition levelPolicy (t : string) (sizeMB : float) (level : Z) : Prop :=
  (t = "speed" -> level = 1%Z)
  /\ (t = "balanced" ->
        (fle sizeMB 50 = true -> level = 3%Z)
        /\ (flt 50 sizeMB = true -> fle sizeMB 200 = true -> level = 5%Z)
        /\ (fgt sizeMB 200 = true -> level = 3%Z))
  /\ (t = "ratio" ->
        (fle sizeMB 200 = true -> level = 7%Z)
        /\ (flt 200 sizeMB = true -> fle sizeMB 500 = true -> level = 9%Z)
        /\ (fgt sizeMB 500 = true -> level = 12%Z))
  /\ (t ≠ "speed" -> t ≠ "balanced" -> t ≠ "ratio" -> level = 3%Z)
  /\ (1 <= level <= 22)%Z.

(** One candidate of the family scores strictly above all the others. *)
Definition strictTop (score : string -> float) (candidates : list string) : Prop :=
  exists k, k ∈ candidates
    /\ forall c, c ∈ candidates -> c ≠ k -> fgt (score k) (score c) = true.

(** [k] is the first key of the visit whose score, a number, no key exceeds:
    the keys visited before it score strictly less, the keys visited after it
    do not score more. *)
Definition firstTop (score : string -> float) (order : list string) (k : string) : Prop :=
  exists before after,
    order = (before ++ k :: after)%list
    /\ fgt (score k) math_Inf_neg = true
    /\ (forall c, c ∈ before -> fgt (score k) (score c) = true)
    /\ (forall c, c ∈ after -> fgt (score c) (score k) = false).

(** ** The phases of [RecommendAlgorithms] *)

(** The two maps the encryption loop leaves, and the two the compression loop
    leaves when it starts from the breakdown [bd]. *)
Definition encMaps (sg : Signals) : gmap string float * gmap string float :=
  scoreLoop "enc_" (encScore sg) encCandidates (zeroScores encCandidates) ∅.

Definition compMaps (sg : Signals) (bd : gmap string float)
    : gmap string float * gmap string float :=
  scoreLoop "comp_" (compScore sg) compCandidates (zeroScores compCandidates) bd.

Definition finalBreakdown (sg : Signals) : gmap string float :=
  (compMaps sg (encMaps sg).2).2.

(** ** The inputs of the examples *)

(** The eight bytes every PNG file starts with. *)
Definition png_magic : list Byte.byte :=
  [Byte.x89; Byte.x50; Byte.x4e; Byte.x47; Byte.x0d; Byte.x0a; Byte.x1a; Byte.x0a].

(** The README's example call, on a host where [example.txt] holds text. *)
Definition readme_file : File := regularFile "example.txt" (list_byte_of_string "hello").
Definition readme_prefs : Prefs :=
  {| Tradeoff := "ratio"; AssumeAESNI := true; ForceDetectExt := false |}.

Definition MiB600 : Z := 600 * 1048576.

(** A 600 MiB file of the letter [a], asked with tradeoff ratio and no size
    given, so that the size comes from [Stat]. *)
Definition big_text : File :=
  regularFileOfSize "corpus.txt" (repeat Byte.x61 512) MiB600.
Definition ratio_prefs : Prefs :=
  {| Tradeoff := "ratio"; AssumeAESNI := false; ForceDetectExt := false |}.

Definition big_text_call : Recommendation * option error :=
  RecommendAlgorithms hostLib encCandidates compCandidates (Some big_text) 0 0 0
    ratio_prefs.

(** A 600 MiB PNG image, asked with the zero value of [Prefs]. *)
Definition photo : File :=
  regularFileOfSize "photo.png" (png_magic ++ repeat Byte.x00 504)%list MiB600.
Definition default_prefs : Prefs :=
  {| Tradeoff := ""; AssumeAESNI := false; ForceDetectExt := false |}.
Definition photo_call : Recommendation * option error :=
  RecommendAlgorithms hostLib encCandidates compCandidates (Some photo) 0 0 0
    default_prefs.

Definition speed_prefs : Prefs :=
  {| Tradeoff := "speed"; AssumeAESNI := false; ForceDetectExt := false |}.

(** A call that ties aes256gcmsiv and xchacha20poly1305 at 0.1 + 1.2:
    attention 0, last use one week ago, a small file, tradeoff speed.
    (aes256gcm gets 0.1 + 0.6 + 0.6, which binary64 rounds just below.) *)
Definition tie_call (encOrder : list string) : Recommendation * option error :=
  RecommendAlgorithms hostLib encOrder compCandidates (Some readme_file) 168 0 0 speed_prefs.

Definition rotation1 : list string := ["aes256gcmsiv"; "xchacha20poly1305"; "aes256gcm"].
Definition rotation2 : list string := ["xchacha20poly1305"; "aes256gcm"; "aes256gcmsiv"].

(** A PNG image saved under the name [notes.log]. *)
Definition png_named_log : File := regularFile "notes.log" png_magic.

(** Three bytes of binary data saved under the name [settings.json]. *)
Definition binary_named_json : File :=
  regularFile "settings.json" [Byte.x01; Byte.x02; Byte.x03].

(** A zero-byte file whose extension no table knows. *)
Definition empty_file : File := regularFile "data.qqq" [].

(** ** Value sets of the results *)

(** The six categories [detectFileCategory] can assign. *)
Definition categories : list string :=
  ["text"; "image"; "audio"; "video"; "archive"; "binary"].

(** The keys under which the two loops store scores. *)
Definition scoreKeys : list string :=
  ((fun c => "enc_" ++ c) <$> encCandidates) ++ ((fun c => "comp_" ++ c) <$> compCandidates).

(** The levels the [switch] of lines 216-237 can produce. *)
Definition zstdLevels : list Z := [1; 3; 5; 7; 9; 12]%Z.

(** ** More inputs *)

Definition balanced_prefs : Prefs :=
  {| Tradeoff := "balanced"; AssumeAESNI := false; ForceDetectExt := false |}.

(** The tradeoff speed, shouted and padded, with the unused flag set. *)
Definition shouted_prefs : Prefs :=
  {| Tradeoff := "  SPEED "; AssumeAESNI := false; ForceDetectExt := true |}.

(** A tradeoff the code does not know. *)
Definition fastest_prefs : Prefs :=
  {| Tradeoff := "fastest"; AssumeAESNI := true; ForceDetectExt := false |}.

(** A 200 MiB file of the letter [a]. *)
Definition medium_text : File :=
  regularFileOfSize "notes.txt" (repeat Byte.x61 512) (200 * 1048576).

(** Plain text saved under the name [photo.png]. *)
Definition text_named_png : File := regularFile "photo.png" (list_byte_of_string "hello").

(** A PNG image of eight bytes under the same name. *)
Definition small_photo : File := regularFile "photo.png" png_magic.

(** One call on two builds of the program: with [hostLib] every product and
    sum is rounded, with [fusingLib] every [x*y + z] is one fused operation.
    The file is last used 100 hours ago, attention 0.3. *)
Definition fusion_call (lib : GoLib) : Recommendation * option error :=
  RecommendAlgorithms lib encCandidates compCandidates (Some readme_file) 100 0.3 0
    default_prefs.

(** A call whose two leading encryption scores are so close that the build
    decides the winner: 44 hours, attention 0.9699248120300752, AES-NI. *)
Definition close_call (lib : GoLib) (encOrder : list string) :
    Recommendation * option error :=
  RecommendAlgorithms lib encOrder compCandidates (Some readme_file) 44
    0.9699248120300752 0 readme_prefs.

(** * Verification *)

(** ** The order of binary64 values

    [<] on [float64] is a strict partial order in which NaN is comparable
    with nothing; the facts below are all the selection loops need.  They are
    proved on the specification of the comparison ([SFcompare]) and moved to
    the primitive operations. *)
Section SpecOrder.
Implicit Types a b c : spec_float.

Ltac cmp_cases :=
  repeat match goal with
  | |- context [Z.compare ?x ?y] => destruct (Z.compare_spec x y); subst
  | H : context [Z.compare ?x ?y] |- _ => destruct (Z.compare_spec x y); subst
  | |- context [Pos.compare_cont Eq ?x ?y] =>
      change (Pos.compare_cont Eq x y) with (Pos.compare x y)
  | H : context [Pos.compare_cont Eq ?x ?y] |- _ =>
      change (Pos.compare_cont Eq x y) with (Pos.compare x y) in H
  | |- context [Pos.compare ?x ?y] => destruct (Pos.compare_spec x y); subst
  | H : context [Pos.compare ?x ?y] |- _ => destruct (Pos.compare_spec x y); subst
  end; simpl in *; try discriminate; try reflexivity; try lia.

Lemma SFltb_irrefl a : SFltb a a = false.
Proof.
  unfold SFltb. destruct a as [[]|[]| |[] m e]; simpl; try reflexivity; cmp_cases.
Qed.

Lemma SFltb_trans a b c : SFltb a b = true -> SFltb b c = true -> SFltb a c = true.
Proof.
  unfold SFltb.
  destruct a as [[]|[]| |[] ma ea], b as [[]|[]| |[] mb eb], c as [[]|[]| |[] mc ec];
    simpl; try discriminate; try reflexivity; intros Hab Hbc; cmp_cases.
Qed.

Lemma SFltb_bottom a b : SFltb (S754_infinity true) b = false -> SFltb a b = false.
Proof.
  unfold SFltb.
  destruct a as [[]|[]| |[] ma ea], b as [[]|[]| |[] mb eb];
    simpl; try discriminate; try reflexivity.
Qed.

Lemma SFleb_not_gt a b : SFleb a b = true -> SFltb b a = false.
Proof.
  unfold SFleb, SFltb.
  destruct a as [[]|[]| |[] ma ea], b as [[]|[]| |[] mb eb];
    simpl; try discriminate; try reflexivity; intros Hab; cmp_cases.
Qed.
End SpecOrder.

Lemma fgt_irrefl x : fgt x x = false.
Proof. unfold fgt. rewrite FloatAxioms.ltb_spec. apply SFltb_irrefl. Qed.

Lemma fgt_trans x y z : fgt x y = true -> fgt y z = true -> fgt x z = true.
Proof.
  unfold fgt. rewrite !FloatAxioms.ltb_spec. intros H1 H2.
  eapply SFltb_trans; eauto.
Qed.

Lemma fgt_asym x y : fgt x y = true -> fgt y x = false.
Proof.
  intros H. destruct (fgt y x) eqn:E; [|reflexivity].
  pose proof (fgt_trans _ _ _ H E) as Hxx. rewrite fgt_irrefl in Hxx. discriminate.
Qed.

(** Nothing that fails to exceed [-Inf] exceeds anything. *)
Lemma fgt_bottom x y : fgt y math_Inf_neg = false -> fgt y x = false.
Proof. unfold fgt, math_Inf_neg. rewrite !FloatAxioms.ltb_spec. apply SFltb_bottom. Qed.

Lemma fle_not_gt x y : fle x y = true -> fgt x y = false.
Proof.
  unfold fle, fgt. rewrite FloatAxioms.ltb_spec, FloatAxioms.leb_spec.
  apply SFleb_not_gt.
Qed.

(** ** The scoring loop *)

Lemma append_inj_l (p s t : string) : p ++ s = p ++ t -> s = t.
Proof. induction p as [|c p IH]; simpl; intros H; [assumption|]. injection H. auto. Qed.

Section ScoreLoop.
Variable prefix : string.
Variable score : string -> float.

Lemma scoreLoop_cons c cands scores bd :
  scoreLoop prefix score (c :: cands) scores bd
  = scoreLoop prefix score cands (<[c := score c]> scores) (<[prefix ++ c := score c]> bd).
Proof. reflexivity. Qed.

(** Every candidate ends with its score in the family's map, and the other
    keys keep their value. *)
Lemma scoreLoop_scores cands : forall scores bd c,
  (scoreLoop prefix score cands scores bd).1 !! c
  = if bool_decide (c ∈ cands) then Some (score c) else scores !! c.
Proof.
  induction cands as [|c0 cands IH]; intros scores bd c.
  - reflexivity.
  - rewrite scoreLoop_cons, IH.
    destruct (bool_decide (c ∈ cands)) eqn:Hin.
    + apply bool_decide_eq_true in Hin.
      rewrite bool_decide_eq_true_2 by (right; exact Hin). reflexivity.
    + apply bool_decide_eq_false in Hin.
      destruct (decide (c = c0)) as [->|Hne].
      * rewrite bool_decide_eq_true_2 by left. apply lookup_insert_eq.
      * rewrite bool_decide_eq_false_2 by (rewrite elem_of_cons; tauto).
        apply lookup_insert_ne. congruence.
Qed.

(** ... and under the prefixed key in the breakdown, whose other keys are
    left as they were. *)
Lemma scoreLoop_breakdown_out cands : forall scores bd k,
  (forall c, c ∈ cands -> k ≠ prefix ++ c) ->
  (scoreLoop prefix score cands scores bd).2 !! k = bd !! k.
Proof.
  induction cands as [|c0 cands IH]; intros scores bd k Hk.
  - reflexivity.
  - rewrite scoreLoop_cons, IH by (intros c Hc; apply Hk; right; exact Hc).
    apply lookup_insert_ne. intros E. apply (Hk c0); [left|congruence].
Qed.

Lemma scoreLoop_breakdown_in cands : forall scores bd c,
  c ∈ cands ->
  (scoreLoop prefix score cands scores bd).2 !! (prefix ++ c) = Some (score c).
Proof.
  induction cands as [|c0 cands IH]; intros scores bd c Hin.
  - inversion Hin.
  - rewrite scoreLoop_cons.
    destruct (decide (c ∈ cands)) as [Hc|Hc]; [apply IH; exact Hc|].
    apply elem_of_cons in Hin as [->|Hin]; [|contradiction].
    rewrite scoreLoop_breakdown_out; [apply lookup_insert_eq|].
    intros c Hin E. apply append_inj_l in E. congruence.
Qed.
End ScoreLoop.

(** ** The selection loop *)

Section RangePick.
Variable scores : gmap string float.

(** The invariant of [for k, v := range scores]: the running best is the
    start value or a visited entry that beats it, and no visited entry
    beats the running best. *)
Lemma pick_fold order : forall init,
  let r := fold_left (pickStep scores) order init in
  (r = init \/ (r.1 ∈ order /\ scores !! r.1 = Some r.2 /\ fgt r.2 init.2 = true))
  /\ (forall k v, k ∈ order -> scores !! k = Some v -> fgt v r.2 = false).
Proof.
  induction order as [|k0 order IH]; intros init; simpl.
  - split; [left; reflexivity|]. intros k v Hk. inversion Hk.
  - specialize (IH (pickStep scores init k0)). simpl in IH.
    set (r := fold_left (pickStep scores) order (pickStep scores init k0)) in *.
    destruct IH as [Hshape Hmax].
    unfold pickStep in Hshape.
    destruct (scores !! k0) as [v0|] eqn:Hk0.
    + destruct (fgt v0 init.2) eqn:Hgt.
      * (* the entry replaced the running best *)
        assert (fgt v0 r.2 = false) as Hv0.
        { destruct Hshape as [->|(_ & _ & Hr)]; simpl in *.
          - apply fgt_irrefl.
          - apply fgt_asym. exact Hr. }
        split.
        -- right. destruct Hshape as [Hr|(Hin & Hl & Hr)].
           ++ rewrite Hr. simpl. repeat split; [left|assumption|assumption].
           ++ simpl in Hr. repeat split; [right; exact Hin|exact Hl|].
              eapply fgt_trans; eassumption.
        -- intros k v Hk Hl. apply elem_of_cons in Hk as [->|Hk]; [|eauto].
           rewrite Hk0 in Hl. injection Hl as <-. exact Hv0.
      * (* the entry did not beat the running best *)
        assert (fgt v0 r.2 = false) as Hv0.
        { destruct Hshape as [->|(_ & _ & Hr)]; [exact Hgt|].
          destruct (fgt v0 r.2) eqn:E; [|reflexivity].
          rewrite (fgt_trans _ _ _ E Hr) in Hgt. discriminate. }
        split.
        -- destruct Hshape as [Hr|(Hin & Hl & Hr)]; [left; exact Hr|].
           right. repeat split; [right; exact Hin|exact Hl|exact Hr].
        -- intros k v Hk Hl. apply elem_of_cons in Hk as [->|Hk]; [|eauto].
           rewrite Hk0 in Hl. injection Hl as <-. exact Hv0.
    + split.
      * destruct Hshape as [Hr|(Hin & Hl & Hr)]; [left; exact Hr|].
        right. repeat split; [right; exact Hin|exact Hl|exact Hr].
      * intros k v Hk Hl. apply elem_of_cons in Hk as [->|Hk]; [|eauto].
        rewrite Hk0 in Hl. discriminate.
Qed.

Lemma rangePick_shape order :
  rangePick scores order = ("", math_Inf_neg)
  \/ ((rangePick scores order).1 ∈ order
      /\ scores !! (rangePick scores order).1 = Some (rangePick scores order).2).
Proof.
  destruct (pick_fold order ("", math_Inf_neg)) as [[H|(H1 & H2 & _)] _]; auto.
Qed.

Lemma rangePick_max order k v :
  k ∈ order -> scores !! k = Some v -> fgt v (rangePick scores order).2 = false.
Proof. intros Hk Hl. exact (proj2 (pick_fold order ("", math_Inf_neg)) k v Hk Hl). Qed.

(** A key whose value strictly exceeds every other visited value is picked,
    whatever the order of the visit. *)
Lemma rangePick_strict order k v :
  k ∈ order -> scores !! k = Some v ->
  fgt v math_Inf_neg = true ->
  (forall k' v', k' ∈ order -> k' ≠ k -> scores !! k' = Some v' -> fgt v v' = true) ->
  rangePick scores order = (k, v).
Proof.
  intros Hk Hl Hinf Hstrict.
  pose proof (rangePick_max order k v Hk Hl) as Hmax.
  destruct (rangePick_shape order) as [E|(Hin & Hl')].
  - rewrite E in Hmax. simpl in Hmax. congruence.
  - destruct (rangePick scores order) as [k' v']. simpl in *.
    destruct (decide (k' = k)) as [->|Hne]; [congruence|].
    rewrite (Hstrict k' v' Hin Hne Hl') in Hmax. discriminate.
Qed.

(** With every candidate visited, the winner after the default of lines
    118-120 / 198-200 is a candidate that no candidate beats. *)
Lemma winner_maximal order cands fallback :
  order ≡ₚ cands -> fallback ∈ cands -> "" ∉ cands ->
  (forall c, c ∈ cands -> is_Some (scores !! c)) ->
  let w := orDefault (rangePick scores order).1 fallback in
  w ∈ cands /\
  exists s, scores !! w = Some s /\
    forall c v, c ∈ cands -> scores !! c = Some v -> fgt v s = false.
Proof.
  intros Hperm Hfb Hempty Hsome w. subst w.
  assert (forall x, x ∈ order <-> x ∈ cands) as Hmem
    by (intros x; rewrite Hperm; reflexivity).
  destruct (rangePick_shape order) as [E|(Hin & Hl)].
  - rewrite E. simpl. split; [exact Hfb|].
    destruct (Hsome fallback Hfb) as [s Hs]. exists s. split; [exact Hs|].
    intros c v Hc Hv. apply fgt_bottom.
    pose proof (rangePick_max order c v) as Hmax. rewrite E in Hmax.
    apply Hmax; [apply Hmem; exact Hc|exact Hv].
  - apply Hmem in Hin.
    assert (orDefault (rangePick scores order).1 fallback = (rangePick scores order).1) as ->.
    { unfold orDefault. destruct (String.eqb_spec (rangePick scores order).1 "") as [E|_];
        [|reflexivity].
      rewrite E in Hin. contradiction. }
    split; [exact Hin|]. eexists. split; [exact Hl|].
    intros c v Hc Hv. apply (rangePick_max order c v); [apply Hmem; exact Hc|exact Hv].
Qed.
End RangePick.

(** ** [RecommendAlgorithms], phase by phase *)

Lemma compMaps_scores sg bd : (compMaps sg bd).1 = (compMaps sg ∅).1.
Proof. reflexivity. Qed.

Lemma encWinner_eq encOrder sg :
  encWinner encOrder sg
  = (orDefault (rangePick (encMaps sg).1 encOrder).1 "aes256gcm",
     (rangePick (encMaps sg).1 encOrder).2).
Proof.
  unfold encWinner. fold (encMaps sg).
  destruct (encMaps sg) as [m bd]. simpl. destruct (rangePick m encOrder). reflexivity.
Qed.

Lemma compWinner_eq compOrder sg :
  compWinner compOrder sg
  = (orDefault (rangePick (compMaps sg ∅).1 compOrder).1 "lz4",
     (rangePick (compMaps sg ∅).1 compOrder).2).
Proof.
  unfold compWinner. fold (compMaps sg ∅).
  destruct (compMaps sg ∅) as [m bd]. simpl. destruct (rangePick m compOrder). reflexivity.
Qed.

(** What a call on a non-nil handle returns, in terms of the phases. *)
Lemma RecommendAlgorithms_some lib encOrder compOrder f lastUsedHours attention sizeBytes prefs :
  let sg := preprocess lib f lastUsedHours attention sizeBytes prefs in
  let enc := encWinner encOrder sg in
  let comp := compWinner compOrder sg in
  let skip := skipTest sg comp.1 comp.2 in
  let compression := if skip then "none" else comp.1 in
  RecommendAlgorithms lib encOrder compOrder (Some f) lastUsedHours attention sizeBytes prefs
  = ({| Encryption := enc.1;
        Compression := compression;
        ZstdLevel :=
          if String.eqb compression "zstd"
          then zstdLevel (sg_tradeoff sg) (sg_sizeMB sg) else 0%Z;
        SkipCompression := skip;
        ScoreBreakdown := finalBreakdown sg;
        Reason :=
          if skip then reason_skip (sg_category sg)
          else reason_chosen enc.1 enc.2 compression comp.2;
        DetectedMime := sg_mime sg;
        DetectedCategory := sg_category sg |}, None).
Proof.
  intros sg enc comp skip compression.
  subst enc comp skip compression.
  unfold RecommendAlgorithms, encWinner, compWinner, finalBreakdown, compMaps, encMaps,
    scoreLoop.
  fold sg. generalize sg. clear sg. intros sg.
  cbn [fold_left encCandidates compCandidates fst snd].
  destruct (rangePick _ encOrder) as [be bes].
  destruct (rangePick _ compOrder) as [bc bcs]. reflexivity.
Qed.

Lemma encMaps_scores sg c :
  c ∈ encCandidates -> (encMaps sg).1 !! c = Some (encScore sg c).
Proof.
  intros Hc. unfold encMaps. rewrite scoreLoop_scores.
  rewrite bool_decide_eq_true_2 by exact Hc. reflexivity.
Qed.

Lemma compMaps_scores_lookup sg c :
  c ∈ compCandidates -> (compMaps sg ∅).1 !! c = Some (compScore sg c).
Proof.
  intros Hc. unfold compMaps. rewrite scoreLoop_scores.
  rewrite bool_decide_eq_true_2 by exact Hc. reflexivity.
Qed.

(** [rec.ScoreBreakdown] holds every candidate's score under its prefixed
    key. *)
Lemma breakdown_enc sg c :
  c ∈ encCandidates -> finalBreakdown sg !! ("enc_" ++ c) = Some (encScore sg c).
Proof.
  intros Hc. unfold finalBreakdown, compMaps.
  rewrite scoreLoop_breakdown_out by (intros c' _ E; simpl in E; discriminate).
  unfold encMaps. apply scoreLoop_breakdown_in. exact Hc.
Qed.

Lemma breakdown_comp sg c :
  c ∈ compCandidates -> finalBreakdown sg !! ("comp_" ++ c) = Some (compScore sg c).
Proof.
  intros Hc. unfold finalBreakdown, compMaps. apply scoreLoop_breakdown_in. exact Hc.
Qed.

Lemma cand_cases_enc c :
  c ∈ encCandidates -> c = "aes256gcm" \/ c = "aes256gcmsiv" \/ c = "xchacha20poly1305".
Proof. unfold encCandidates. rewrite !elem_of_cons, elem_of_nil. tauto. Qed.

Lemma cand_cases_comp c :
  c ∈ compCandidates -> c = "zip" \/ c = "lzma2" \/ c = "lz4" \/ c = "zstd".
Proof. unfold compCandidates. rewrite !elem_of_cons, elem_of_nil. tauto. Qed.

(** The winner of the encryption loop is a candidate no candidate beats. *)
Lemma encWinner_maximal encOrder sg :
  encOrder ≡ₚ encCandidates ->
  (encWinner encOrder sg).1 ∈ encCandidates /\
  forall c, c ∈ encCandidates ->
    fgt (encScore sg c) (encScore sg (encWinner encOrder sg).1) = false.
Proof.
  intros Hperm. rewrite encWinner_eq. simpl.
  destruct (winner_maximal (encMaps sg).1 encOrder encCandidates "aes256gcm" Hperm)
    as (Hin & s & Hs & Hmax).
  - left.
  - intros H. apply cand_cases_enc in H. destruct H as [H|[H|H]]; discriminate.
  - intros c Hc. rewrite encMaps_scores by exact Hc. eauto.
  - split; [exact Hin|]. intros c Hc.
    rewrite encMaps_scores in Hs by exact Hin. injection Hs as <-.
    apply (Hmax c). exact Hc. apply encMaps_scores. exact Hc.
Qed.

Lemma compWinner_maximal compOrder sg :
  compOrder ≡ₚ compCandidates ->
  (compWinner compOrder sg).1 ∈ compCandidates /\
  forall c, c ∈ compCandidates ->
    fgt (compScore sg c) (compScore sg (compWinner compOrder sg).1) = false.
Proof.
  intros Hperm. rewrite compWinner_eq. simpl.
  destruct (winner_maximal (compMaps sg ∅).1 compOrder compCandidates "lz4" Hperm)
    as (Hin & s & Hs & Hmax).
  - right; right; left.
  - intros H. apply cand_cases_comp in H. destruct H as [H|[H|[H|H]]]; discriminate.
  - intros c Hc. rewrite compMaps_scores_lookup by exact Hc. eauto.
  - split; [exact Hin|]. intros c Hc.
    rewrite compMaps_scores_lookup in Hs by exact Hin. injection Hs as <-.
    apply (Hmax c). exact Hc. apply compMaps_scores_lookup. exact Hc.
Qed.

Lemma normTradeoff_cases lib prefs :
  normTradeoff lib prefs = "speed" \/ normTradeoff lib prefs = "ratio"
  \/ normTradeoff lib prefs = "balanced".
Proof.
  unfold normTradeoff.
  set (t := strings_TrimSpace lib (strings_ToLower lib (Tradeoff prefs))).
  destruct (String.eqb_spec t "speed"); [auto|].
  destruct (String.eqb_spec t "ratio"); [auto|].
  destruct (String.eqb_spec t "balanced"); simpl; auto.
Qed.

(** ** The preprocessing computes the quantities the specification names *)

Lemma clampAttention_clamp01 x : clampAttention x = clamp01 x.
Proof.
  unfold clampAttention, clamp01, fmin, fmax, fgt, flt.
  destruct (PrimFloat.ltb x 0) eqn:E; [reflexivity|]. reflexivity.
Qed.

Lemma luhW_weeklyWeight h : luhW_of (clampHours h) = weeklyWeight h.
Proof.
  unfold luhW_of, weeklyWeight, clampHours, fmin, fgt, flt.
  replace (Z.max h 0) with (if (h <? 0)%Z then 0%Z else h)
    by (destruct (Z.ltb_spec h 0); lia).
  reflexivity.
Qed.

Lemma preprocess_fields lib f h a sz p :
  let sg := preprocess lib f h a sz p in
  sg_attention sg = clamp01 a /\ sg_luhW sg = weeklyWeight h
  /\ sg_sizeMB sg = sizeInMB f sz /\ sg_tradeoff sg = normTradeoff lib p
  /\ sg_aesni sg = AssumeAESNI p
  /\ (sg_mime sg, sg_category sg) = detectFileCategory lib f.
Proof.
  unfold preprocess. destruct (detectFileCategory lib f) as [m c]. simpl.
  rewrite clampAttention_clamp01, luhW_weeklyWeight. repeat split; reflexivity.
Qed.

(** ** Scores and winners *)

Lemma preprocess_fusion lib f h a sz p :
  sg_fusion (preprocess lib f h a sz p) = float_fusion lib.
Proof. unfold preprocess. destruct (detectFileCategory lib f). reflexivity. Qed.

(** C1.  On a non-nil handle the call succeeds and, with [a] the attention
    clamped to [0,1], [w = min(max(lastUsedHours,0)/168, 3)] and [sizeMB] the
    size in MiB after the size fallback, the score map holds
    [0.1 + a*2.5 + w*1.2] for aes256gcmsiv,
    [0.1 + a*0.6 + (2.0 or 0.6) + w*0.6] for aes256gcm and
    [0.1 + (3.0 if sizeMB>100) + (1.2 if speed) + a*0.8] for
    xchacha20poly1305, evaluated in binary64 in the order of the code and as
    the build evaluates a product met by a sum: fused into it or rounded
    first.  On a build that fuses nothing these are the sums and products
    rounded one by one.  On every build the returned [Encryption] is a
    candidate, and no candidate has a score above its score. *)
Theorem C1_encryption_scores (lib : GoLib) (encOrder compOrder : list string)
    (f : File) (lastUsedHours : Z) (attention : float) (sizeBytes : Z) (prefs : Prefs) :
  encOrder ≡ₚ encCandidates ->
  let a := clamp01 attention in
  let w := weeklyWeight lastUsedHours in
  let sizeMB := sizeInMB f sizeBytes in
  let speed := String.eqb (normTradeoff lib prefs) "speed" in
  let hw := if AssumeAESNI prefs then 2.0 else 0.6 in
  let build := float_fusion lib in
  let res := RecommendAlgorithms lib encOrder compOrder (Some f) lastUsedHours attention
               sizeBytes prefs in
  res.2 = None
  /\ ScoreBreakdown res.1 !! "enc_aes256gcmsiv"
     = Some (0.1 + mulAddMul (fuse_gcmsiv build) a 2.5 w 1.2)
  /\ ScoreBreakdown res.1 !! "enc_aes256gcm"
     = Some (addMul (fuse_gcm_recency build)
               (0.1 + mulAdd (fuse_gcm_bonus build) a 0.6 hw) w 0.6)
  /\ ScoreBreakdown res.1 !! "enc_xchacha20poly1305"
     = Some (addMul (fuse_xchacha build)
               (0.1 + bonus (fgt sizeMB 100) 3.0 + bonus speed 1.2) a 0.8)
  /\ (build = no_fusion ->
      ScoreBreakdown res.1 !! "enc_aes256gcmsiv" = Some (0.1 + (a * 2.5 + w * 1.2))
      /\ ScoreBreakdown res.1 !! "enc_aes256gcm" = Some (0.1 + (a * 0.6 + hw) + w * 0.6)
      /\ ScoreBreakdown res.1 !! "enc_xchacha20poly1305"
         = Some (0.1 + bonus (fgt sizeMB 100) 3.0 + bonus speed 1.2 + a * 0.8))
  /\ Encryption res.1 ∈ encCandidates
  /\ exists s, ScoreBreakdown res.1 !! ("enc_" ++ Encryption res.1) = Some s
       /\ forall c s', c ∈ encCandidates ->
            ScoreBreakdown res.1 !! ("enc_" ++ c) = Some s' -> fgt s' s = false.
Proof.
  intros Hperm a w sizeMB speed hw build res. subst res.
  rewrite RecommendAlgorithms_some. cbn [fst snd Encryption ScoreBreakdown].
  destruct (preprocess_fields lib f lastUsedHours attention sizeBytes prefs)
    as (Ha & Hw & Hsz & Ht & Hni & _).
  pose proof (preprocess_fusion lib f lastUsedHours attention sizeBytes prefs) as Hfz.
  set (sg := preprocess lib f lastUsedHours attention sizeBytes prefs) in *.
  fold a in Ha. fold w in Hw. fold sizeMB in Hsz. fold build in Hfz.
  destruct (encWinner_maximal encOrder sg Hperm) as [Hin Hmax].
  assert (finalBreakdown sg !! "enc_aes256gcmsiv"
          = Some (0.1 + mulAddMul (fuse_gcmsiv build) a 2.5 w 1.2)) as Hsiv.
  { assert ("aes256gcmsiv" ∈ encCandidates) as Hc by (right; left).
    etrans; [exact (breakdown_enc sg _ Hc)|].
    unfold encScore. cbn [String.eqb Ascii.eqb Bool.eqb]. rewrite Ha, Hw, Hfz.
    reflexivity. }
  assert (finalBreakdown sg !! "enc_aes256gcm"
          = Some (addMul (fuse_gcm_recency build)
                    (0.1 + mulAdd (fuse_gcm_bonus build) a 0.6 hw) w 0.6)) as Hgcm.
  { assert ("aes256gcm" ∈ encCandidates) as Hc by left.
    etrans; [exact (breakdown_enc sg _ Hc)|].
    unfold encScore. cbn [String.eqb Ascii.eqb Bool.eqb]. rewrite Ha, Hw, Hni, Hfz.
    subst hw. destruct (AssumeAESNI prefs); reflexivity. }
  assert (finalBreakdown sg !! "enc_xchacha20poly1305"
          = Some (addMul (fuse_xchacha build)
                    (0.1 + bonus (fgt sizeMB 100) 3.0 + bonus speed 1.2) a 0.8)) as Hx.
  { assert ("xchacha20poly1305" ∈ encCandidates) as Hc by (right; right; left).
    etrans; [exact (breakdown_enc sg _ Hc)|].
    unfold encScore. cbn [String.eqb Ascii.eqb Bool.eqb]. rewrite Ha, Hsz, Ht, Hfz.
    fold speed. unfold bonus.
    destruct (fgt sizeMB 100), speed; reflexivity. }
  split; [reflexivity|].
  split; [exact Hsiv|]. split; [exact Hgcm|]. split; [exact Hx|].
  split.
  { intros Hno. rewrite Hsiv, Hgcm, Hx, Hno. repeat split; reflexivity. }
  split; [exact Hin|].
  exists (encScore sg (encWinner encOrder sg).1).
  split; [apply breakdown_enc; exact Hin|].
  intros c s' Hc Hs'. rewrite breakdown_enc in Hs' by exact Hc.
  injection Hs' as <-. apply Hmax. exact Hc.
Qed.

(** The README's call, with the score map visited in declaration order. *)
Lemma C1_encryption_scores_witness :
  encCandidates ≡ₚ encCandidates
  /\ Encryption (RecommendAlgorithms hostLib encCandidates compCandidates
                   (Some readme_file) 48 0.8 0 readme_prefs).1 ∈ encCandidates.
Proof.
  split; [reflexivity|].
  exact (proj1 (proj2 (proj2 (proj2 (proj2 (proj2
    (C1_encryption_scores hostLib encCandidates compCandidates readme_file 48 0.8 0
       readme_prefs (Permutation_refl _)))))))).
Defined.

(** The build matters to the last digit of the stored scores: the same call
    gives different entries when the products are fused into the sums. *)
Example rounded_build_scores :
  ScoreBreakdown (fusion_call hostLib).1 !! "enc_aes256gcmsiv" = Some 1.5642857142857145%float
  /\ ScoreBreakdown (fusion_call hostLib).1 !! "enc_xchacha20poly1305"
     = Some 0.33999999999999997%float.
Proof. split; vm_compute; reflexivity. Qed.

Example fused_build_scores :
  ScoreBreakdown (fusion_call fusingLib).1 !! "enc_aes256gcmsiv" = Some 1.5642857142857143%float
  /\ ScoreBreakdown (fusion_call fusingLib).1 !! "enc_xchacha20poly1305" = Some 0.34%float.
Proof. split; vm_compute; reflexivity. Qed.

Lemma isAlreadyCompressed_spec category :
  isAlreadyCompressed category = alreadyCompressed category.
Proof.
  unfold isAlreadyCompressed, alreadyCompressed, str_in. simpl.
  destruct (String.eqb_spec category "image") as [->|H1]; [reflexivity|].
  destruct (String.eqb_spec category "video") as [->|H2]; [reflexivity|].
  destruct (String.eqb_spec category "audio") as [->|H3]; [reflexivity|].
  destruct (String.eqb_spec category "archive") as [->|H4]; [reflexivity|].
  simpl. symmetry. apply bool_decide_eq_false.
  rewrite !elem_of_cons, elem_of_nil. tauto.
Qed.

(** C2.  On a non-nil handle, each compression candidate's score is the base
    0.1 plus: for an already-compressed category, +2.0 for lz4 and -1.2 for
    the others; otherwise the tradeoff row (ratio/balanced/speed) and the
    size bonus of the candidate; zstd and lz4 get +1.2 more when sizeMB>500
    in both branches.  The winner of the compression loop is a candidate, no
    candidate has a score above its score, and it is the [Compression]
    returned whenever compression is not skipped. *)
Theorem C2_compression_scores (lib : GoLib) (encOrder compOrder : list string)
    (f : File) (lastUsedHours : Z) (attention : float) (sizeBytes : Z) (prefs : Prefs) :
  compOrder ≡ₚ compCandidates ->
  let sizeMB := sizeInMB f sizeBytes in
  let t := normTradeoff lib prefs in
  let already := alreadyCompressed (detectFileCategory lib f).2 in
  let res := RecommendAlgorithms lib encOrder compOrder (Some f) lastUsedHours attention
               sizeBytes prefs in
  let winner :=
    (compWinner compOrder (preprocess lib f lastUsedHours attention sizeBytes prefs)).1 in
  res.2 = None
  /\ ScoreBreakdown res.1 !! "comp_lzma2"
     = Some (if already then 0.1 - 1.2
             else 0.1 + byTradeoff t 3.0 1.6 0.6 + bonus (fgt sizeMB 100) 1.2)
  /\ ScoreBreakdown res.1 !! "comp_zstd"
     = Some ((if already then 0.1 - 1.2
              else 0.1 + byTradeoff t 2.5 2.0 1.2 + bonus (fgt sizeMB 50) 1.0)
             + bonus (fgt sizeMB 500) 1.2)
  /\ ScoreBreakdown res.1 !! "comp_lz4"
     = Some ((if already then 0.1 + 2.0
              else 0.1 + byTradeoff t 0.3 1.0 2.2 + bonus (flt sizeMB 10) 0.6)
             + bonus (fgt sizeMB 500) 1.2)
  /\ ScoreBreakdown res.1 !! "comp_zip"
     = Some (if already then 0.1 - 1.2
             else 0.1 + bonus (flt sizeMB 10) 1.2 + bonus (String.eqb t "speed") 0.6)
  /\ winner ∈ compCandidates
  /\ (exists s, ScoreBreakdown res.1 !! ("comp_" ++ winner) = Some s
       /\ forall c s', c ∈ compCandidates ->
            ScoreBreakdown res.1 !! ("comp_" ++ c) = Some s' -> fgt s' s = false)
  /\ (SkipCompression res.1 = false -> Compression res.1 = winner).
Proof.
  intros Hperm sizeMB t already res winner. subst res winner.
  rewrite RecommendAlgorithms_some.
  cbn [fst snd Compression SkipCompression ScoreBreakdown].
  destruct (preprocess_fields lib f lastUsedHours attention sizeBytes prefs)
    as (_ & _ & Hsz & Ht & _ & Hcat).
  set (sg := preprocess lib f lastUsedHours attention sizeBytes prefs) in *.
  assert (isAlreadyCompressed (sg_category sg) = already) as Hac.
  { rewrite isAlreadyCompressed_spec. subst already. rewrite <- Hcat. reflexivity. }
  destruct (compWinner_maximal compOrder sg Hperm) as [Hin Hmax].
  fold sizeMB in Hsz. fold t in Ht.
  split; [reflexivity|].
  split.
  { assert ("lzma2" ∈ compCandidates) as Hc by (right; left).
    etrans; [exact (breakdown_comp sg _ Hc)|].
    unfold compScore. cbn [String.eqb Ascii.eqb Bool.eqb orb andb]. rewrite Hac, Hsz, Ht.
    rewrite andb_false_r. unfold byTradeoff, bonus.
    destruct (normTradeoff_cases lib prefs) as [E|[E|E]]; fold t in E; rewrite E;
      destruct already, (fgt sizeMB 100); reflexivity. }
  split.
  { assert ("zstd" ∈ compCandidates) as Hc by (right; right; right; left).
    etrans; [exact (breakdown_comp sg _ Hc)|].
    unfold compScore. cbn [String.eqb Ascii.eqb Bool.eqb orb andb]. rewrite Hac, Hsz, Ht.
    rewrite andb_true_r. unfold byTradeoff, bonus.
    destruct (normTradeoff_cases lib prefs) as [E|[E|E]]; fold t in E; rewrite E;
      destruct already, (fgt sizeMB 50), (fgt sizeMB 500); reflexivity. }
  split.
  { assert ("lz4" ∈ compCandidates) as Hc by (right; right; left).
    etrans; [exact (breakdown_comp sg _ Hc)|].
    unfold compScore. cbn [String.eqb Ascii.eqb Bool.eqb orb andb]. rewrite Hac, Hsz, Ht.
    rewrite andb_true_r. unfold byTradeoff, bonus.
    destruct (normTradeoff_cases lib prefs) as [E|[E|E]]; fold t in E; rewrite E;
      destruct already, (flt sizeMB 10), (fgt sizeMB 500); reflexivity. }
  split.
  { assert ("zip" ∈ compCandidates) as Hc by left.
    etrans; [exact (breakdown_comp sg _ Hc)|].
    unfold compScore. cbn [String.eqb Ascii.eqb Bool.eqb orb andb]. rewrite Hac, Hsz, Ht.
    rewrite andb_false_r. unfold bonus.
    destruct (normTradeoff_cases lib prefs) as [E|[E|E]]; fold t in E; rewrite E;
      destruct already, (flt sizeMB 10); reflexivity. }
  split; [exact Hin|].
  split.
  { exists (compScore sg (compWinner compOrder sg).1).
    split; [apply breakdown_comp; exact Hin|].
    intros c s' Hc Hs'. rewrite breakdown_comp in Hs' by exact Hc.
    injection Hs' as <-. apply Hmax. exact Hc. }
  intros Hskip. rewrite Hskip. reflexivity.
Qed.

(** The README's call again, for the compression family. *)
Lemma C2_compression_scores_witness :
  compCandidates ≡ₚ compCandidates
  /\ (compWinner compCandidates (preprocess hostLib readme_file 48 0.8 0 readme_prefs)).1
     ∈ compCandidates.
Proof.
  split; [reflexivity|].
  exact (proj1 (proj2 (proj2 (proj2 (proj2 (proj2
    (C2_compression_scores hostLib encCandidates compCandidates readme_file 48 0.8 0
       readme_prefs (Permutation_refl _)))))))).
Defined.

(** ** Already-compressed categories *)

(** The keys of the compression map are the four candidates. *)
Lemma compMaps_key sg k v :
  (compMaps sg ∅).1 !! k = Some v -> k ∈ compCandidates /\ v = compScore sg k.
Proof.
  unfold compMaps. rewrite scoreLoop_scores.
  destruct (bool_decide (k ∈ compCandidates)) eqn:Hk.
  - apply bool_decide_eq_true in Hk. intros [= <-]. auto.
  - apply bool_decide_eq_false in Hk. intros Hz. exfalso. apply Hk.
    unfold zeroScores in Hz. apply elem_of_list_to_map_2 in Hz.
    apply list_elem_of_fmap in Hz as (c & [= -> _] & Hc). exact Hc.
Qed.

(** Lines 134-139 and 183-185 when [isAlreadyCompressed] holds. *)
Lemma compScore_already sg :
  isAlreadyCompressed (sg_category sg) = true ->
  compScore sg "zip" = 0.1 - 1.2
  /\ compScore sg "lzma2" = 0.1 - 1.2
  /\ compScore sg "lz4" = 0.1 + 2.0 + bonus (fgt (sg_sizeMB sg) 500) 1.2
  /\ compScore sg "zstd" = 0.1 - 1.2 + bonus (fgt (sg_sizeMB sg) 500) 1.2.
Proof.
  intros Hac. unfold compScore, bonus. rewrite Hac.
  cbn [String.eqb Ascii.eqb Bool.eqb orb andb].
  destruct (fgt (sg_sizeMB sg) 500); repeat split; reflexivity.
Qed.

(** Whatever the order of the visit, the loop over an already-compressed
    file's scores ends on lz4 or on a score below 0.5. *)
Lemma compWinner_already compOrder sg :
  isAlreadyCompressed (sg_category sg) = true ->
  (compWinner compOrder sg).1 = "lz4" \/ flt (compWinner compOrder sg).2 0.5 = true.
Proof.
  intros Hac. rewrite compWinner_eq. cbn [fst snd].
  destruct (compScore_already sg Hac) as (Hzip & Hlzma & _ & Hzstd).
  destruct (rangePick_shape (compMaps sg ∅).1 compOrder) as [E|(_ & Hl)].
  - rewrite E. left. reflexivity.
  - apply compMaps_key in Hl as [Hin Hv]. rewrite Hv.
    apply cand_cases_comp in Hin as [E|[E|[E|E]]]; rewrite E.
    + right. rewrite Hzip. reflexivity.
    + right. rewrite Hlzma. reflexivity.
    + left. reflexivity.
    + right. rewrite Hzstd. unfold bonus. destruct (fgt (sg_sizeMB sg) 500); reflexivity.
Qed.

(** C3.  On a non-nil handle the result has [Compression = "none"] and
    [SkipCompression = true] exactly when the category is already compressed
    and (the winning compression score is below 0.5, or the winner is lz4 and
    the normalized tradeoff is not ratio); otherwise [Compression] is the
    winner and [SkipCompression] is false.  In particular a file classified
    as image, with tradeoff balanced, gets "none" and true, whatever the
    signals. *)
Theorem C3_skip_policy (lib : GoLib) (encOrder compOrder : list string)
    (f : File) (lastUsedHours : Z) (attention : float) (sizeBytes : Z) (prefs : Prefs) :
  let res := RecommendAlgorithms lib encOrder compOrder (Some f) lastUsedHours attention
               sizeBytes prefs in
  let category := (detectFileCategory lib f).2 in
  let t := normTradeoff lib prefs in
  let best := compWinner compOrder (preprocess lib f lastUsedHours attention sizeBytes prefs) in
  let skip_condition :=
    alreadyCompressed category = true
    /\ (flt best.2 0.5 = true \/ (best.1 = "lz4" /\ t ≠ "ratio")) in
  res.2 = None
  /\ (Compression res.1 = "none" /\ SkipCompression res.1 = true <-> skip_condition)
  /\ (~ skip_condition -> Compression res.1 = best.1 /\ SkipCompression res.1 = false)
  /\ (category = "image" -> t = "balanced" ->
      Compression res.1 = "none" /\ SkipCompression res.1 = true).
Proof.
  intros res category t best skip_condition. subst res.
  rewrite RecommendAlgorithms_some.
  cbn [fst snd Compression SkipCompression].
  destruct (preprocess_fields lib f lastUsedHours attention sizeBytes prefs)
    as (_ & _ & _ & Ht & _ & Hcat).
  set (sg := preprocess lib f lastUsedHours attention sizeBytes prefs) in *.
  fold best. fold t in Ht.
  assert (sg_category sg = category) as Hc by (subst category; rewrite <- Hcat; reflexivity).
  assert (skipTest sg best.1 best.2 = true <-> skip_condition) as Hskip.
  { unfold skipTest, skip_condition. rewrite isAlreadyCompressed_spec, Hc, Ht.
    rewrite andb_true_iff, orb_true_iff, andb_true_iff, negb_true_iff.
    rewrite String.eqb_eq, String.eqb_neq. reflexivity. }
  split; [reflexivity|].
  split; [|split].
  - rewrite <- Hskip. destruct (skipTest sg best.1 best.2); [tauto|].
    split; [intros [_ H]; exact H|discriminate].
  - intros Hn. destruct (skipTest sg best.1 best.2); [|auto].
    exfalso. apply Hn, Hskip. reflexivity.
  - intros Himg Hbal.
    assert (skipTest sg best.1 best.2 = true) as ->; [|auto].
    apply Hskip. unfold skip_condition. rewrite Himg, Hbal.
    split; [reflexivity|].
    assert (isAlreadyCompressed (sg_category sg) = true) as Hac
      by (rewrite Hc, Himg; reflexivity).
    destruct (compWinner_already compOrder sg Hac) as [H|H]; fold best in H.
    + right. split; [exact H|discriminate].
    + left. exact H.
Qed.

(** The skip policy on a PNG file with default signals and tradeoff
    balanced. *)
Example skip_png_balanced :
  let res := RecommendAlgorithms hostLib encCandidates compCandidates
               (Some (regularFile "photo.png" png_magic)) 0 0 0
               {| Tradeoff := "balanced"; AssumeAESNI := false; ForceDetectExt := false |} in
  DetectedCategory res.1 = "image" /\ Compression res.1 = "none"
  /\ SkipCompression res.1 = true.
Proof. vm_compute. auto. Qed.

(** ** The zstd level *)

(** A size that is at most [lo] is not above a larger bound [hi]. *)
Lemma fle_not_above x lo hi : fle x lo = true -> fgt hi lo = true -> fgt x hi = false.
Proof.
  intros Hle Hhi. destruct (fgt x hi) eqn:E; [|reflexivity].
  pose proof (fgt_trans _ _ _ E Hhi) as H. rewrite (fle_not_gt x lo Hle) in H. discriminate.
Qed.

Lemma zstdLevel_policy t sizeMB : levelPolicy t sizeMB (zstdLevel t sizeMB).
Proof.
  unfold levelPolicy, zstdLevel.
  destruct (String.eqb_spec t "speed") as [->|Hs].
  { repeat split; try discriminate; try reflexivity; try congruence. }
  destruct (String.eqb_spec t "balanced") as [->|Hb].
  { split; [discriminate|]. split; [|split; [discriminate|]].
    - intros _. split; [|split].
      + intros Hle. rewrite (fle_not_above sizeMB 50 200 Hle eq_refl).
        rewrite (fle_not_gt _ _ Hle). reflexivity.
      + intros Hgt Hle. rewrite (fle_not_gt _ _ Hle). unfold fgt. unfold flt in Hgt.
        rewrite Hgt. reflexivity.
      + intros Hgt. rewrite Hgt. reflexivity.
    - split; [congruence|].
      destruct (fgt sizeMB 200); [split; discriminate|].
      destruct (fgt sizeMB 50); split; discriminate. }
  destruct (String.eqb_spec t "ratio") as [->|Hr].
  { split; [discriminate|]. split; [discriminate|]. split; [|split; [congruence|]].
    - intros _. split; [|split].
      + intros Hle. rewrite (fle_not_above sizeMB 200 500 Hle eq_refl).
        rewrite (fle_not_gt _ _ Hle). reflexivity.
      + intros Hgt Hle. rewrite (fle_not_gt _ _ Hle). unfold fgt. unfold flt in Hgt.
        rewrite Hgt. reflexivity.
      + intros Hgt. rewrite Hgt. reflexivity.
    - destruct (fgt sizeMB 500); [split; discriminate|].
      destruct (fgt sizeMB 200); split; discriminate. }
  repeat split; try congruence; discriminate.
Qed.

(** C4.  Whenever the final compression choice is zstd, [ZstdLevel] is the
    level the code's policy gives for the normalized tradeoff and the size
    in MiB, and that policy is: 1 for speed; for balanced 3 up to 50, 5 above
    50 up to 200, 3 again above 200; for ratio 7 up to 200, 9 above 200 up
    to 500, 12 above 500; 3 for any other tradeoff string; always within
    [1,22]. *)
Theorem C4_zstd_level (lib : GoLib) (encOrder compOrder : list string)
    (f : File) (lastUsedHours : Z) (attention : float) (sizeBytes : Z) (prefs : Prefs) :
  Compression (RecommendAlgorithms lib encOrder compOrder (Some f) lastUsedHours attention
                 sizeBytes prefs).1 = "zstd" ->
  let res := RecommendAlgorithms lib encOrder compOrder (Some f) lastUsedHours attention
               sizeBytes prefs in
  let t := normTradeoff lib prefs in
  let sizeMB := sizeInMB f sizeBytes in
  ZstdLevel res.1 = zstdLevel t sizeMB
  /\ levelPolicy t sizeMB (ZstdLevel res.1)
  /\ forall t', levelPolicy t' sizeMB (zstdLevel t' sizeMB).
Proof.
  intros Hz res t sizeMB. subst res t sizeMB. revert Hz.
  rewrite RecommendAlgorithms_some.
  cbn [fst snd Compression ZstdLevel].
  destruct (preprocess_fields lib f lastUsedHours attention sizeBytes prefs)
    as (_ & _ & Hsz & Ht & _ & _).
  intros Hz. rewrite Hz, Hsz, Ht. cbn [String.eqb Ascii.eqb Bool.eqb].
  split; [reflexivity|]. split; [apply zstdLevel_policy|].
  intros t. apply zstdLevel_policy.
Qed.

(** The 600 MiB text file with tradeoff ratio ends on zstd, at level 12. *)
Lemma C4_zstd_level_witness :
  Compression big_text_call.1 = "zstd"
  /\ sizeInMB big_text 0 = 600
  /\ ZstdLevel big_text_call.1 = 12%Z.
Proof.
  assert (Compression big_text_call.1 = "zstd") as Hz by (vm_compute; reflexivity).
  split; [exact Hz|]. split; [vm_compute; reflexivity|].
  destruct (C4_zstd_level hostLib encCandidates compCandidates big_text 0 0 0
              ratio_prefs Hz) as (_ & (_ & _ & Hratio & _) & _).
  apply Hratio; vm_compute; reflexivity.
Defined.

(** ** Strict winners *)

Lemma fgt_above_bottom x y : fgt x y = true -> fgt x math_Inf_neg = true.
Proof.
  unfold fgt, math_Inf_neg. rewrite !FloatAxioms.ltb_spec. unfold SFltb.
  change (Prim2SF neg_infinity) with (S754_infinity true).
  destruct (Prim2SF y) as [[]|[]| |[] my ey], (Prim2SF x) as [[]|[]| |[] mx ex];
    simpl; try discriminate; reflexivity.
Qed.

(** A candidate that strictly outscores the others of its family wins the
    loop in whatever order the map is visited. *)
Lemma encWinner_strict encOrder sg k :
  encOrder ≡ₚ encCandidates -> k ∈ encCandidates ->
  (forall c, c ∈ encCandidates -> c ≠ k -> fgt (encScore sg k) (encScore sg c) = true) ->
  encWinner encOrder sg = (k, encScore sg k).
Proof.
  intros Hperm Hk Hstrict. rewrite encWinner_eq.
  assert (forall x, x ∈ encOrder <-> x ∈ encCandidates) as Hmem
    by (intros x; rewrite Hperm; reflexivity).
  rewrite (rangePick_strict (encMaps sg).1 encOrder k (encScore sg k)).
  - cbn [fst snd]. unfold orDefault.
    destruct (String.eqb_spec k "") as [->|_]; [|reflexivity].
    apply cand_cases_enc in Hk. destruct Hk as [H|[H|H]]; discriminate.
  - apply Hmem. exact Hk.
  - apply encMaps_scores. exact Hk.
  - assert (exists c, c ∈ encCandidates /\ c ≠ k) as (c & Hc & Hne).
    { destruct (String.eqb_spec k "aes256gcm") as [->|Hne].
      - exists "aes256gcmsiv". split; [right; left|discriminate].
      - exists "aes256gcm". split; [left|congruence]. }
    eapply fgt_above_bottom. apply (Hstrict c Hc Hne).
  - intros k' v' Hk' Hne Hl. apply Hmem in Hk'.
    rewrite encMaps_scores in Hl by exact Hk'. injection Hl as <-. auto.
Qed.

Lemma compWinner_strict compOrder sg k :
  compOrder ≡ₚ compCandidates -> k ∈ compCandidates ->
  (forall c, c ∈ compCandidates -> c ≠ k -> fgt (compScore sg k) (compScore sg c) = true) ->
  compWinner compOrder sg = (k, compScore sg k).
Proof.
  intros Hperm Hk Hstrict. rewrite compWinner_eq.
  assert (forall x, x ∈ compOrder <-> x ∈ compCandidates) as Hmem
    by (intros x; rewrite Hperm; reflexivity).
  rewrite (rangePick_strict (compMaps sg ∅).1 compOrder k (compScore sg k)).
  - cbn [fst snd]. unfold orDefault.
    destruct (String.eqb_spec k "") as [->|_]; [|reflexivity].
    apply cand_cases_comp in Hk. destruct Hk as [H|[H|[H|H]]]; discriminate.
  - apply Hmem. exact Hk.
  - apply compMaps_scores_lookup. exact Hk.
  - assert (exists c, c ∈ compCandidates /\ c ≠ k) as (c & Hc & Hne).
    { destruct (String.eqb_spec k "zip") as [->|Hne].
      - exists "lz4". split; [right; right; left|discriminate].
      - exists "zip". split; [left|congruence]. }
    eapply fgt_above_bottom. apply (Hstrict c Hc Hne).
  - intros k' v' Hk' Hne Hl. apply Hmem in Hk'.
    rewrite compMaps_scores_lookup in Hl by exact Hk'. injection Hl as <-. auto.
Qed.

(** ** A large text file with tradeoff ratio *)

Lemma compScore_text_ratio_600 sg :
  sg_category sg = "text" -> sg_tradeoff sg = "ratio" -> sg_sizeMB sg = 600 ->
  compScore sg "lzma2" = 4.3 /\ compScore sg "zstd" = 4.8
  /\ compScore sg "lz4" = 1.6 /\ compScore sg "zip" = 0.1.
Proof.
  intros Hc Ht Hs. unfold compScore. rewrite Hc, Ht, Hs. repeat split; reflexivity.
Qed.

(** C5, on the code: the claim that lzma2 wins fails at this input. *)
Lemma C5_counterexample :
  (detectFileCategory hostLib big_text).2 = "text"
  /\ normTradeoff hostLib ratio_prefs = "ratio"
  /\ sizeInMB big_text 0 = 600
  /\ (compWinner compCandidates (preprocess hostLib big_text 0 0 0 ratio_prefs)).1
     ≠ "lzma2"
  /\ Compression big_text_call.1 ≠ "lzma2".
Proof. vm_compute. repeat split; discriminate. Qed.

(** C5, amended.  For a file of category text with sizeMB = 600 and tradeoff
    ratio the scores are 4.3 for lzma2 (0.1 + 3.0 + 1.2), 4.8 for zstd
    (0.1 + 2.5 + 1.0 + 1.2, the last term being the bonus above 500 MiB that
    only zstd and lz4 get), 1.6 for lz4 and 0.1 for zip; zstd wins over
    lzma2 and is the compression returned. *)
Theorem C5_large_text_ratio (lib : GoLib) (encOrder compOrder : list string)
    (f : File) (lastUsedHours : Z) (attention : float) (sizeBytes : Z) (prefs : Prefs) :
  compOrder ≡ₚ compCandidates ->
  (detectFileCategory lib f).2 = "text" ->
  normTradeoff lib prefs = "ratio" ->
  sizeInMB f sizeBytes = 600 ->
  let res := RecommendAlgorithms lib encOrder compOrder (Some f) lastUsedHours attention
               sizeBytes prefs in
  ScoreBreakdown res.1 !! "comp_lzma2" = Some 4.3
  /\ ScoreBreakdown res.1 !! "comp_zstd" = Some 4.8
  /\ ScoreBreakdown res.1 !! "comp_lz4" = Some 1.6
  /\ ScoreBreakdown res.1 !! "comp_zip" = Some 0.1
  /\ compWinner compOrder (preprocess lib f lastUsedHours attention sizeBytes prefs)
     = ("zstd", 4.8)
  /\ Compression res.1 = "zstd"
  /\ SkipCompression res.1 = false.
Proof.
  intros Hperm Hcat Ht Hsz res. subst res.
  rewrite RecommendAlgorithms_some.
  cbn [fst snd Compression SkipCompression ScoreBreakdown].
  destruct (preprocess_fields lib f lastUsedHours attention sizeBytes prefs)
    as (_ & _ & Hsz' & Ht' & _ & Hcat').
  set (sg := preprocess lib f lastUsedHours attention sizeBytes prefs) in *.
  assert (sg_category sg = "text") as Hc by (rewrite <- Hcat, <- Hcat'; reflexivity).
  rewrite Ht in Ht'. rewrite Hsz in Hsz'.
  destruct (compScore_text_ratio_600 sg Hc Ht' Hsz') as (Hlzma & Hzstd & Hlz4 & Hzip).
  assert (compWinner compOrder sg = ("zstd", 4.8)) as Hwin.
  { rewrite <- Hzstd. apply compWinner_strict; [exact Hperm|right; right; right; left|].
    intros c Hin Hne. apply cand_cases_comp in Hin as [E|[E|[E|E]]]; subst c;
      try congruence; rewrite Hzstd, ?Hlzma, ?Hlz4, ?Hzip; reflexivity. }
  rewrite Hwin. cbn [fst snd].
  assert (skipTest sg "zstd" 4.8 = false) as ->
    by (unfold skipTest; rewrite Hc; reflexivity).
  repeat split.
  - rewrite <- Hlzma. exact (breakdown_comp sg "lzma2" ltac:(right; left)).
  - rewrite <- Hzstd. exact (breakdown_comp sg "zstd" ltac:(right; right; right; left)).
  - rewrite <- Hlz4. exact (breakdown_comp sg "lz4" ltac:(right; right; left)).
  - rewrite <- Hzip. exact (breakdown_comp sg "zip" ltac:(left)).
Qed.

(** The 600 MiB text file meets the three conditions. *)
Lemma C5_large_text_ratio_witness :
  compCandidates ≡ₚ compCandidates
  /\ (detectFileCategory hostLib big_text).2 = "text"
  /\ normTradeoff hostLib ratio_prefs = "ratio"
  /\ sizeInMB big_text 0 = 600
  /\ Compression big_text_call.1 = "zstd".
Proof.
  assert ((detectFileCategory hostLib big_text).2 = "text") as Hc by (vm_compute; reflexivity).
  assert (normTradeoff hostLib ratio_prefs = "ratio") as Ht by (vm_compute; reflexivity).
  assert (sizeInMB big_text 0 = 600) as Hs by (vm_compute; reflexivity).
  split; [reflexivity|]. split; [exact Hc|]. split; [exact Ht|]. split; [exact Hs|].
  exact (proj1 (proj2 (proj2 (proj2 (proj2 (proj2
    (C5_large_text_ratio hostLib encCandidates compCandidates big_text 0 0 0
       ratio_prefs (Permutation_refl _) Hc Ht Hs))))))).
Defined.

(** ** Already-compressed files *)

(** C10, on the code: for the 600 MiB image the score stored for zstd is
    0.1 - 1.2 + 1.2 computed in binary64, that is 0.10000000000000009, which
    is above 0.1. *)
Lemma C10_counterexample :
  DetectedCategory photo_call.1 = "image"
  /\ photo_call.2 = None
  /\ ScoreBreakdown photo_call.1 !! "comp_zstd" = Some (0.1 - 1.2 + 1.2)
  /\ fle (0.1 - 1.2 + 1.2) 0.1 = false.
Proof. vm_compute. repeat split; reflexivity. Qed.

(** C10, amended.  When the detected category is image, video, audio or
    archive, lz4 is the strict winner of the compression loop with score 2.1,
    or 3.3 when sizeMB > 500; every other candidate scores below 0.5 and
    below lz4: at most 0.1, except that zstd, when sizeMB > 500, has
    0.1 - 1.2 + 1.2 as computed in binary64.  The result is "none" with
    [SkipCompression] exactly when the normalized tradeoff is not ratio, and
    "lz4" without it when it is ratio; the winning score is never below
    0.5. *)
Theorem C10_already_compressed (lib : GoLib) (encOrder compOrder : list string)
    (f : File) (lastUsedHours : Z) (attention : float) (sizeBytes : Z) (prefs : Prefs) :
  compOrder ≡ₚ compCandidates ->
  alreadyCompressed (detectFileCategory lib f).2 = true ->
  let res := RecommendAlgorithms lib encOrder compOrder (Some f) lastUsedHours attention
               sizeBytes prefs in
  let sizeMB := sizeInMB f sizeBytes in
  let t := normTradeoff lib prefs in
  let best := compWinner compOrder (preprocess lib f lastUsedHours attention sizeBytes prefs) in
  res.2 = None
  /\ best = ("lz4", if fgt sizeMB 500 then 3.3 else 2.1)
  /\ ScoreBreakdown res.1 !! "comp_lz4" = Some best.2
  /\ (forall c s, c ∈ compCandidates -> c ≠ "lz4" ->
        ScoreBreakdown res.1 !! ("comp_" ++ c) = Some s ->
        fgt best.2 s = true /\ flt s 0.5 = true
        /\ (fle s 0.1 = true
            \/ (c = "zstd" /\ fgt sizeMB 500 = true /\ s = 0.1 - 1.2 + 1.2)))
  /\ (Compression res.1 = "none" /\ SkipCompression res.1 = true <-> t ≠ "ratio")
  /\ (t = "ratio" -> Compression res.1 = "lz4" /\ SkipCompression res.1 = false)
  /\ flt best.2 0.5 = false.
Proof.
  intros Hperm Halready res sizeMB t best. subst res.
  rewrite RecommendAlgorithms_some.
  cbn [fst snd Compression SkipCompression ScoreBreakdown].
  destruct (preprocess_fields lib f lastUsedHours attention sizeBytes prefs)
    as (_ & _ & Hsz & Ht & _ & Hcat).
  set (sg := preprocess lib f lastUsedHours attention sizeBytes prefs) in *.
  fold sizeMB in Hsz. fold t in Ht. fold best.
  assert (isAlreadyCompressed (sg_category sg) = true) as Hac.
  { rewrite isAlreadyCompressed_spec, <- Halready, <- Hcat. reflexivity. }
  destruct (compScore_already sg Hac) as (Hzip & Hlzma & Hlz4 & Hzstd).
  rewrite Hsz in Hlz4, Hzstd.
  assert (best = ("lz4", compScore sg "lz4")) as Hbest.
  { apply compWinner_strict; [exact Hperm|right; right; left|].
    intros c Hin Hne. apply cand_cases_comp in Hin as [E|[E|[E|E]]]; subst c;
      try congruence; rewrite Hlz4, ?Hzip, ?Hlzma, ?Hzstd; unfold bonus;
      destruct (fgt sizeMB 500); reflexivity. }
  assert (compScore sg "lz4" = if fgt sizeMB 500 then 3.3 else 2.1) as Hval.
  { rewrite Hlz4. unfold bonus. destruct (fgt sizeMB 500); reflexivity. }
  assert (skipTest sg best.1 best.2 = negb (String.eqb t "ratio")) as Hskip.
  { unfold skipTest. rewrite Hac, Hbest, Ht, Hval. cbn [fst snd].
    destruct (fgt sizeMB 500); reflexivity. }
  rewrite Hskip.
  split; [reflexivity|].
  split; [rewrite Hbest, Hval; reflexivity|].
  split.
  { rewrite Hbest. exact (breakdown_comp sg "lz4" ltac:(right; right; left)). }
  split.
  { intros c s Hin Hne Hs. rewrite breakdown_comp in Hs by exact Hin.
    injection Hs as <-. rewrite Hbest, Hval. cbn [snd].
    apply cand_cases_comp in Hin as [E|[E|[E|E]]]; subst c; try congruence;
      rewrite ?Hzip, ?Hlzma, ?Hzstd; unfold bonus;
      destruct (fgt sizeMB 500); repeat split; auto. }
  destruct (String.eqb_spec t "ratio") as [E|E]; cbn [negb].
  - rewrite Hbest. cbn [fst]. repeat split; try tauto; try discriminate.
    + intros [H _]. discriminate.
    + rewrite Hval. destruct (fgt sizeMB 500); reflexivity.
  - repeat split; try tauto.
    rewrite Hbest, Hval. cbn [snd]. destruct (fgt sizeMB 500); reflexivity.
Qed.

(** The 600 MiB PNG image is of an already-compressed category. *)
Lemma C10_already_compressed_witness :
  compCandidates ≡ₚ compCandidates
  /\ alreadyCompressed (detectFileCategory hostLib photo).2 = true
  /\ compWinner compCandidates (preprocess hostLib photo 0 0 0 default_prefs)
     = ("lz4", if fgt (sizeInMB photo 0) 500 then 3.3 else 2.1).
Proof.
  assert (alreadyCompressed (detectFileCategory hostLib photo).2 = true) as Hc
    by (vm_compute; reflexivity).
  split; [reflexivity|]. split; [exact Hc|].
  exact (proj1 (proj2
    (C10_already_compressed hostLib encCandidates compCandidates photo 0 0 0
       default_prefs (Permutation_refl _) Hc))).
Defined.

(** ** Determinism and the order of [range] over a map *)

(** C6, on the code: the same inputs give two different results under two
    iteration orders of the score map, and under the second the winner is
    xchacha20poly1305 although aes256gcmsiv has the same score and comes
    first in the priority the claim states. *)
Lemma C6_counterexample :
  rotation1 ≡ₚ encCandidates
  /\ rotation2 ≡ₚ encCandidates
  /\ Encryption (tie_call rotation1).1 = "aes256gcmsiv"
  /\ Encryption (tie_call rotation2).1 = "xchacha20poly1305"
  /\ ScoreBreakdown (tie_call rotation2).1 !! "enc_aes256gcmsiv"
     = ScoreBreakdown (tie_call rotation2).1 !! "enc_xchacha20poly1305"
  /\ tie_call rotation1 ≠ tie_call rotation2.
Proof.
  split; [exact (Permutation_app_comm ["aes256gcmsiv"; "xchacha20poly1305"] ["aes256gcm"])|].
  split; [exact (Permutation_app_comm ["xchacha20poly1305"] ["aes256gcm"; "aes256gcmsiv"])|].
  assert (Encryption (tie_call rotation1).1 = "aes256gcmsiv") as H1
    by (vm_compute; reflexivity).
  assert (Encryption (tie_call rotation2).1 = "xchacha20poly1305") as H2
    by (vm_compute; reflexivity).
  split; [exact H1|]. split; [exact H2|]. split; [vm_compute; reflexivity|].
  intros E. rewrite E, H2 in H1. discriminate.
Qed.

(** The first key of the visit among those no key exceeds is the one the
    loop ends on. *)
Lemma rangePick_first scores pre k post v :
  scores !! k = Some v -> fgt v math_Inf_neg = true ->
  (forall k' v', k' ∈ pre -> scores !! k' = Some v' -> fgt v v' = true) ->
  (forall k' v', k' ∈ post -> scores !! k' = Some v' -> fgt v' v = false) ->
  rangePick scores (pre ++ k :: post) = (k, v).
Proof.
  intros Hl Hinf Hpre Hpost. unfold rangePick. rewrite fold_left_app. cbn [fold_left].
  assert (pickStep scores (fold_left (pickStep scores) pre ("", math_Inf_neg)) k = (k, v))
    as ->.
  { destruct (pick_fold scores pre ("", math_Inf_neg)) as [[E|(Hin & Hl' & _)] _].
    - rewrite E. unfold pickStep. rewrite Hl. cbn [snd]. rewrite Hinf. reflexivity.
    - set (r := fold_left (pickStep scores) pre ("", math_Inf_neg)) in *.
      unfold pickStep. rewrite Hl, (Hpre _ _ Hin Hl'). reflexivity. }
  destruct (pick_fold scores post (k, v)) as [[E|(Hin & Hl' & Hgt)] _]; [exact E|].
  cbn [snd] in Hgt. rewrite (Hpost _ _ Hin Hl') in Hgt. discriminate.
Qed.

(** The keys of the encryption map are the three candidates. *)
Lemma encMaps_key sg k v :
  (encMaps sg).1 !! k = Some v -> k ∈ encCandidates /\ v = encScore sg k.
Proof.
  unfold encMaps. rewrite scoreLoop_scores.
  destruct (bool_decide (k ∈ encCandidates)) eqn:Hk.
  - apply bool_decide_eq_true in Hk. intros [= <-]. auto.
  - apply bool_decide_eq_false in Hk. intros Hz. exfalso. apply Hk.
    unfold zeroScores in Hz. apply elem_of_list_to_map_2 in Hz.
    apply list_elem_of_fmap in Hz as (c & [= -> _] & Hc). exact Hc.
Qed.

Lemma encWinner_first encOrder sg k :
  encOrder ≡ₚ encCandidates -> firstTop (encScore sg) encOrder k ->
  encWinner encOrder sg = (k, encScore sg k).
Proof.
  intros Hperm (before & after & -> & Hinf & Hbefore & Hafter).
  assert (forall x, x ∈ (before ++ k :: after)%list <-> x ∈ encCandidates) as Hmem
    by (intros x; rewrite Hperm; reflexivity).
  assert (k ∈ encCandidates) as Hk by (apply Hmem, elem_of_app; right; left).
  rewrite encWinner_eq.
  rewrite (rangePick_first (encMaps sg).1 before k after (encScore sg k)).
  - cbn [fst snd]. unfold orDefault.
    destruct (String.eqb_spec k "") as [->|_]; [|reflexivity].
    apply cand_cases_enc in Hk. destruct Hk as [H|[H|H]]; discriminate.
  - apply encMaps_scores. exact Hk.
  - exact Hinf.
  - intros k' v' Hin Hl. apply encMaps_key in Hl as [_ ->]. apply Hbefore. exact Hin.
  - intros k' v' Hin Hl. apply encMaps_key in Hl as [_ ->]. apply Hafter. exact Hin.
Qed.

Lemma compWinner_first compOrder sg k :
  compOrder ≡ₚ compCandidates -> firstTop (compScore sg) compOrder k ->
  compWinner compOrder sg = (k, compScore sg k).
Proof.
  intros Hperm (before & after & -> & Hinf & Hbefore & Hafter).
  assert (forall x, x ∈ (before ++ k :: after)%list <-> x ∈ compCandidates) as Hmem
    by (intros x; rewrite Hperm; reflexivity).
  assert (k ∈ compCandidates) as Hk by (apply Hmem, elem_of_app; right; left).
  rewrite compWinner_eq.
  rewrite (rangePick_first (compMaps sg ∅).1 before k after (compScore sg k)).
  - cbn [fst snd]. unfold orDefault.
    destruct (String.eqb_spec k "") as [->|_]; [|reflexivity].
    apply cand_cases_comp in Hk. destruct Hk as [H|[H|[H|H]]]; discriminate.
  - apply compMaps_scores_lookup. exact Hk.
  - exact Hinf.
  - intros k' v' Hin Hl. apply compMaps_key in Hl as [_ ->]. apply Hbefore. exact Hin.
  - intros k' v' Hin Hl. apply compMaps_key in Hl as [_ ->]. apply Hafter. exact Hin.
Qed.

(** C6, amended.  Two calls with identical inputs, each under any iteration
    order of the two score maps, return the same score map, the same detected
    MIME type and category and no error, and encryption winners whose scores
    do not exceed one another (likewise for compression).  Each winner is a
    candidate that no candidate of its family outscores, and it is the first
    such candidate met in the iteration order of the call: on an exact tie
    for the top score the order decides, not a fixed priority.  When a single
    candidate of each family scores strictly above the others, the two
    results are identical. *)
Theorem C6_determinism_up_to_ties (lib : GoLib)
    (encOrder1 compOrder1 encOrder2 compOrder2 : list string)
    (f : File) (lastUsedHours : Z) (attention : float) (sizeBytes : Z) (prefs : Prefs) :
  encOrder1 ≡ₚ encCandidates -> encOrder2 ≡ₚ encCandidates ->
  compOrder1 ≡ₚ compCandidates -> compOrder2 ≡ₚ compCandidates ->
  let sg := preprocess lib f lastUsedHours attention sizeBytes prefs in
  let r1 := RecommendAlgorithms lib encOrder1 compOrder1 (Some f) lastUsedHours attention
              sizeBytes prefs in
  let r2 := RecommendAlgorithms lib encOrder2 compOrder2 (Some f) lastUsedHours attention
              sizeBytes prefs in
  ScoreBreakdown r1.1 = ScoreBreakdown r2.1
  /\ DetectedMime r1.1 = DetectedMime r2.1
  /\ DetectedCategory r1.1 = DetectedCategory r2.1
  /\ r1.2 = None /\ r2.2 = None
  /\ fgt (encScore sg (Encryption r1.1)) (encScore sg (Encryption r2.1)) = false
  /\ fgt (compScore sg (compWinner compOrder1 sg).1)
         (compScore sg (compWinner compOrder2 sg).1) = false
  /\ (Encryption r1.1 ∈ encCandidates
      /\ forall c, c ∈ encCandidates ->
           fgt (encScore sg c) (encScore sg (Encryption r1.1)) = false)
  /\ ((compWinner compOrder1 sg).1 ∈ compCandidates
      /\ forall c, c ∈ compCandidates ->
           fgt (compScore sg c) (compScore sg (compWinner compOrder1 sg).1) = false)
  /\ (forall k, firstTop (encScore sg) encOrder1 k -> Encryption r1.1 = k)
  /\ (forall k, firstTop (compScore sg) compOrder1 k ->
      (compWinner compOrder1 sg).1 = k
      /\ (SkipCompression r1.1 = false -> Compression r1.1 = k))
  /\ (strictTop (encScore sg) encCandidates -> strictTop (compScore sg) compCandidates ->
      r1 = r2).
Proof.
  intros He1 He2 Hc1 Hc2 sg r1 r2. subst r1 r2.
  rewrite !RecommendAlgorithms_some. fold sg.
  cbn [fst snd Encryption Compression SkipCompression ScoreBreakdown DetectedMime
       DetectedCategory].
  destruct (encWinner_maximal encOrder1 sg He1) as [Hin1 Hmax1].
  destruct (encWinner_maximal encOrder2 sg He2) as [_ Hmax2].
  destruct (compWinner_maximal compOrder1 sg Hc1) as [Hcin1 Hcmax1].
  destruct (compWinner_maximal compOrder2 sg Hc2) as [_ Hcmax2].
  split; [reflexivity|]. split; [reflexivity|]. split; [reflexivity|].
  split; [reflexivity|]. split; [reflexivity|].
  split; [apply Hmax2; exact Hin1|]. split; [apply Hcmax2; exact Hcin1|].
  split; [split; assumption|]. split; [split; assumption|].
  split.
  { intros k Hk. rewrite (encWinner_first encOrder1 sg k He1 Hk). reflexivity. }
  split.
  { intros k Hk. rewrite (compWinner_first compOrder1 sg k Hc1 Hk). cbn [fst snd].
    split; [reflexivity|]. intros ->. reflexivity. }
  intros (ke & Hke & Hse) (kc & Hkc & Hsc).
  rewrite (encWinner_strict encOrder1 sg ke He1 Hke Hse).
  rewrite (encWinner_strict encOrder2 sg ke He2 Hke Hse).
  rewrite (compWinner_strict compOrder1 sg kc Hc1 Hkc Hsc).
  rewrite (compWinner_strict compOrder2 sg kc Hc2 Hkc Hsc).
  reflexivity.
Qed.

(** In the README's call aes256gcm and lzma2 lead their families strictly. *)
Lemma strictTop_readme :
  let sg := preprocess hostLib readme_file 48 0.8 0 readme_prefs in
  strictTop (encScore sg) encCandidates /\ strictTop (compScore sg) compCandidates.
Proof.
  split.
  - exists "aes256gcm". split; [left|].
    intros c Hin Hne. apply cand_cases_enc in Hin as [E|[E|E]]; subst c;
      [congruence|vm_compute; reflexivity|vm_compute; reflexivity].
  - exists "lzma2". split; [right; left|].
    intros c Hin Hne. apply cand_cases_comp in Hin as [E|[E|[E|E]]]; subst c;
      try congruence; vm_compute; reflexivity.
Qed.

(** The README's call has a strict winner in both families, and gives the
    same result under two rotations of the encryption map. *)
Lemma C6_determinism_up_to_ties_witness :
  rotation1 ≡ₚ encCandidates /\ rotation2 ≡ₚ encCandidates
  /\ compCandidates ≡ₚ compCandidates
  /\ RecommendAlgorithms hostLib rotation1 compCandidates (Some readme_file) 48 0.8 0
       readme_prefs
     = RecommendAlgorithms hostLib rotation2 compCandidates (Some readme_file) 48 0.8 0
         readme_prefs.
Proof.
  assert (rotation1 ≡ₚ encCandidates) as H1
    by exact (Permutation_app_comm ["aes256gcmsiv"; "xchacha20poly1305"] ["aes256gcm"]).
  assert (rotation2 ≡ₚ encCandidates) as H2
    by exact (Permutation_app_comm ["xchacha20poly1305"] ["aes256gcm"; "aes256gcmsiv"]).
  split; [exact H1|]. split; [exact H2|]. split; [reflexivity|].
  apply (C6_determinism_up_to_ties hostLib rotation1 compCandidates rotation2 compCandidates
           readme_file 48 0.8 0 readme_prefs H1 H2 (Permutation_refl _) (Permutation_refl _)).
  - exact (proj1 strictTop_readme).
  - exact (proj2 strictTop_readme).
Defined.

(** The build of the program can decide the winner too, whatever the
    iteration order: where every product and sum is rounded the call returns
    aes256gcm, where [x*y + z] is fused it returns aes256gcmsiv. *)
Example build_decides_winner (encOrder : list string) :
  encOrder ≡ₚ encCandidates ->
  Encryption (close_call hostLib encOrder).1 = "aes256gcm"
  /\ Encryption (close_call fusingLib encOrder).1 = "aes256gcmsiv".
Proof.
  intros Hperm. unfold close_call. rewrite !RecommendAlgorithms_some.
  cbn [fst snd Encryption]. split.
  - rewrite (encWinner_strict encOrder _ "aes256gcm" Hperm); [reflexivity| |].
    + set_solver.
    + intros c Hc Hne. apply cand_cases_enc in Hc.
      destruct Hc as [Hc|[Hc|Hc]]; subst c; try congruence; vm_compute; reflexivity.
  - rewrite (encWinner_strict encOrder _ "aes256gcmsiv" Hperm); [reflexivity| |].
    + set_solver.
    + intros c Hc Hne. apply cand_cases_enc in Hc.
      destruct Hc as [Hc|[Hc|Hc]]; subst c; try congruence; vm_compute; reflexivity.
Qed.

(** ** Classification *)

(** What [detectFileCategory] returns when the read does not fail. *)
Lemma detectFileCategory_read lib f :
  (forall msg, (ReadAt f 512 0).2 ≠ Some (io_failure msg)) ->
  let ext := strings_ToLower lib (filepath_Ext (Name f)) in
  let sniffed := http_DetectContentType lib (ReadAt f 512 0).1 in
  let mimeStr :=
    if String.eqb ext "" then sniffed
    else if String.eqb (mime_TypeByExtension lib ext) "" then sniffed
    else mime_TypeByExtension lib ext in
  detectFileCategory lib f
  = (mimeStr,
     match mime_category (strings_ToLower lib mimeStr) with
     | Some c => c
     | None => ext_category ext
     end).
Proof.
  intros Hok. unfold detectFileCategory.
  destruct (ReadAt f 512 0) as [data err]. simpl in *.
  destruct err as [[|msg]|]; [| exfalso; apply (Hok msg); reflexivity |];
    destruct (String.eqb _ ""); simpl; try reflexivity;
    destruct (String.eqb _ ""); reflexivity.
Qed.

(** C7, on the code: the extension [.log] belongs to the fixed set, yet the
    category stays the one the MIME test chose. *)
Lemma C7_counterexample :
  strings_ToLower hostLib (filepath_Ext (Name png_named_log)) = ".log"
  /\ str_in ".log" text_extensions = true
  /\ detectFileCategory hostLib png_named_log = ("image/png", "image")
  /\ (detectFileCategory hostLib png_named_log).2 ≠ "text".
Proof. vm_compute. repeat split; discriminate. Qed.

(** C7, amended.  The extension switch is reached only when none of the MIME
    tests matches the lowered MIME string; a category chosen by a MIME test is
    never overridden.  When it is reached, an extension of the fixed set gives
    text, [.pdf] gives archive and anything else binary.  In particular a
    file whose content sniffs as application/octet-stream and whose extension
    is [.json] has category text, whether the host maps [.json] to
    application/json or to nothing. *)
Theorem C7_extension_fallback (lib : GoLib) (f : File) :
  (forall msg, (ReadAt f 512 0).2 ≠ Some (io_failure msg)) ->
  let ext := strings_ToLower lib (filepath_Ext (Name f)) in
  let mimeStr := (detectFileCategory lib f).1 in
  let category := (detectFileCategory lib f).2 in
  let low := strings_ToLower lib mimeStr in
  (forall c, mime_category low = Some c -> category = c)
  /\ (mime_category low = None ->
        (str_in ext text_extensions = true -> category = "text")
        /\ (ext = ".pdf" -> category = "archive")
        /\ (str_in ext text_extensions = false -> ext ≠ ".pdf" -> category = "binary"))
  /\ (http_DetectContentType lib (ReadAt f 512 0).1 = "application/octet-stream" ->
      ext = ".json" ->
      mime_TypeByExtension lib ".json" = "" \/
        mime_TypeByExtension lib ".json" = "application/json" ->
      strings_ToLower lib "application/octet-stream" = "application/octet-stream" ->
      strings_ToLower lib "application/json" = "application/json" ->
      category = "text").
Proof.
  intros Hok ext mimeStr category low. subst mimeStr category low.
  rewrite (detectFileCategory_read lib f Hok). fold ext. cbn [fst snd].
  set (mimeStr := if String.eqb ext "" then _ else _).
  split; [|split].
  - intros c Hc. rewrite Hc. reflexivity.
  - intros Hnone. rewrite Hnone. unfold ext_category. split; [|split].
    + intros Hin. rewrite Hin. reflexivity.
    + intros ->. reflexivity.
    + intros Hin Hne. rewrite Hin.
      destruct (String.eqb_spec ext ".pdf"); [contradiction|reflexivity].
  - intros Hsniff Hext Hmap Hl1 Hl2. subst mimeStr. rewrite Hext, Hsniff.
    cbn [String.eqb Ascii.eqb Bool.eqb].
    destruct Hmap as [-> | ->]; cbn [String.eqb Ascii.eqb Bool.eqb];
      rewrite ?Hl1, ?Hl2; reflexivity.
Qed.

(** Binary data named [settings.json]: the read succeeds, the content sniffs
    as application/octet-stream, the category is text. *)
Lemma C7_extension_fallback_witness :
  (forall msg, (ReadAt binary_named_json 512 0).2 ≠ Some (io_failure msg))
  /\ http_DetectContentType hostLib (ReadAt binary_named_json 512 0).1
     = "application/octet-stream"
  /\ (detectFileCategory hostLib binary_named_json).2 = "text".
Proof.
  assert (forall msg, (ReadAt binary_named_json 512 0).2 ≠ Some (io_failure msg)) as Hok
    by (intros msg; vm_compute; discriminate).
  split; [exact Hok|]. split; [vm_compute; reflexivity|].
  apply (proj2 (proj2 (C7_extension_fallback hostLib binary_named_json Hok)));
    vm_compute; auto.
Defined.

(** C8, on the code: an empty prefix sniffs as text, so the result is not
    application/octet-stream / binary. *)
Lemma C8_counterexample :
  ReadAt empty_file 512 0 = ([], Some io_EOF)
  /\ mime_TypeByExtension hostLib (strings_ToLower hostLib (filepath_Ext (Name empty_file)))
     = ""
  /\ detectFileCategory hostLib empty_file = ("text/plain; charset=utf-8", "text")
  /\ detectFileCategory hostLib empty_file ≠ ("application/octet-stream", "binary").
Proof. vm_compute. repeat split; discriminate. Qed.

(** C8, amended.  For a zero-byte file whose name yields no extension
    mapping, classification returns without error the MIME type that content
    sniffing gives for the empty prefix, and the category that goes with it.
    Go's [http.DetectContentType] answers text/plain; charset=utf-8 for the
    empty prefix, so the result is that type with category text. *)
Theorem C8_empty_file (lib : GoLib) (encOrder compOrder : list string) (f : File)
    (lastUsedHours : Z) (attention : float) (sizeBytes : Z) (prefs : Prefs) :
  ReadAt f 512 0 = ([], Some io_EOF) ->
  strings_ToLower lib (filepath_Ext (Name f)) = "" \/
    mime_TypeByExtension lib (strings_ToLower lib (filepath_Ext (Name f))) = "" ->
  let ext := strings_ToLower lib (filepath_Ext (Name f)) in
  let sniffed := http_DetectContentType lib [] in
  let res := RecommendAlgorithms lib encOrder compOrder (Some f) lastUsedHours attention
               sizeBytes prefs in
  detectFileCategory lib f
  = (sniffed,
     match mime_category (strings_ToLower lib sniffed) with
     | Some c => c
     | None => ext_category ext
     end)
  /\ res.2 = None
  /\ (DetectedMime res.1, DetectedCategory res.1) = detectFileCategory lib f
  /\ (sniffed = "text/plain; charset=utf-8" ->
      strings_ToLower lib sniffed = sniffed ->
      detectFileCategory lib f = ("text/plain; charset=utf-8", "text")).
Proof.
  intros Hread Hmap ext sniffed res. subst res.
  assert (detectFileCategory lib f
          = (sniffed,
             match mime_category (strings_ToLower lib sniffed) with
             | Some c => c
             | None => ext_category ext
             end)) as Hcls.
  { rewrite detectFileCategory_read by (intros msg; rewrite Hread; discriminate).
    rewrite Hread. cbn [fst snd]. fold ext sniffed.
    fold ext in Hmap. destruct Hmap as [-> | ->]; [reflexivity|].
    destruct (String.eqb ext ""); reflexivity. }
  split; [exact Hcls|].
  rewrite RecommendAlgorithms_some. cbn [fst snd DetectedMime DetectedCategory].
  destruct (preprocess_fields lib f lastUsedHours attention sizeBytes prefs)
    as (_ & _ & _ & _ & _ & Hcat).
  split; [reflexivity|]. split; [exact Hcat|].
  intros Hs Hl. rewrite Hcls, Hl, Hs. reflexivity.
Qed.

(** The zero-byte file [data.qqq] on the host. *)
Lemma C8_empty_file_witness :
  ReadAt empty_file 512 0 = ([], Some io_EOF)
  /\ detectFileCategory hostLib empty_file = ("text/plain; charset=utf-8", "text").
Proof.
  assert (ReadAt empty_file 512 0 = ([], Some io_EOF)) as Hread by reflexivity.
  split; [exact Hread|].
  apply (proj2 (proj2 (proj2
    (C8_empty_file hostLib encCandidates compCandidates empty_file 0 0 0 default_prefs
       Hread (or_intror eq_refl)))));
    reflexivity.
Defined.

(** ** Errors *)

(** C9.  [RecommendAlgorithms] returns an error exactly when the handle is
    nil, and then the recommendation is the zero value with an empty score
    map.  A handle whose prefix read fails with an error other than
    end-of-stream gives no error: the call succeeds with MIME type
    application/octet-stream and category binary. *)
Theorem C9_error_iff_nil (lib : GoLib) (encOrder compOrder : list string)
    (file : option File) (lastUsedHours : Z) (attention : float) (sizeBytes : Z)
    (prefs : Prefs) :
  let res := RecommendAlgorithms lib encOrder compOrder file lastUsedHours attention
               sizeBytes prefs in
  (res.2 ≠ None <-> file = None)
  /\ (file = None ->
      res.1 = rec_zero /\ ScoreBreakdown res.1 = ∅ /\ Encryption res.1 = ""
      /\ Compression res.1 = "")
  /\ (forall f msg, file = Some f -> (ReadAt f 512 0).2 = Some (io_failure msg) ->
      res.2 = None
      /\ DetectedMime res.1 = "application/octet-stream"
      /\ DetectedCategory res.1 = "binary").
Proof.
  intros res. subst res. destruct file as [f|].
  - rewrite RecommendAlgorithms_some. cbn [fst snd DetectedMime DetectedCategory].
    split; [split; [intros H; exfalso; apply H; reflexivity|discriminate]|].
    split; [discriminate|].
    intros f' msg [= <-] Hread.
    destruct (preprocess_fields lib f lastUsedHours attention sizeBytes prefs)
      as (_ & _ & _ & _ & _ & Hcat).
    assert (detectFileCategory lib f = ("application/octet-stream", "binary")) as Hcls.
    { unfold detectFileCategory. destruct (ReadAt f 512 0) as [data err].
      simpl in Hread. rewrite Hread. reflexivity. }
    rewrite Hcls in Hcat. injection Hcat as -> ->. auto.
  - simpl. split; [split; [reflexivity|discriminate]|].
    split; [auto|]. intros f msg. discriminate.
Qed.

(** The two sides of C9 on a nil handle and on a handle that cannot be read. *)
Example nil_handle :
  RecommendAlgorithms hostLib encCandidates compCandidates None 48 0.8 0 readme_prefs
  = (rec_zero, Some "file is nil").
Proof. reflexivity. Qed.

Example unreadable_handle :
  let res := RecommendAlgorithms hostLib encCandidates compCandidates
               (Some (brokenFile "vault.bin" "input/output error")) 48 0.8 0 readme_prefs in
  res.2 = None /\ DetectedMime res.1 = "application/octet-stream"
  /\ DetectedCategory res.1 = "binary" /\ Compression res.1 = "lzma2".
Proof. vm_compute. auto. Qed.

(** * Further properties of the code *)

(** ** The shape of a recommendation *)

(** Whatever keys the [range] loops visit, and in whatever order, the two
    winners are candidates. *)
Lemma encWinner_in encOrder sg : (encWinner encOrder sg).1 ∈ encCandidates.
Proof.
  rewrite encWinner_eq. cbn [fst].
  destruct (rangePick_shape (encMaps sg).1 encOrder) as [E|(_ & Hl)].
  - rewrite E. left.
  - apply encMaps_key in Hl as [Hin _]. unfold orDefault.
    destruct (String.eqb_spec (rangePick (encMaps sg).1 encOrder).1 "") as [E|_];
      [left|exact Hin].
Qed.

Lemma compWinner_in compOrder sg : (compWinner compOrder sg).1 ∈ compCandidates.
Proof.
  rewrite compWinner_eq. cbn [fst].
  destruct (rangePick_shape (compMaps sg ∅).1 compOrder) as [E|(_ & Hl)].
  - rewrite E. right; right; left.
  - apply compMaps_key in Hl as [Hin _]. unfold orDefault.
    destruct (String.eqb_spec (rangePick (compMaps sg ∅).1 compOrder).1 "") as [E|_];
      [right; right; left|exact Hin].
Qed.

(** X1.  A call on a non-nil handle always names one of the three encryption
    candidates and one of the four compression candidates or "none",
    whatever the inputs and whatever keys the two [range] loops visit. *)
Theorem recommendation_well_formed (lib : GoLib) (encOrder compOrder : list string)
    (f : File) (lastUsedHours : Z) (attention : float) (sizeBytes : Z) (prefs : Prefs) :
  let res := RecommendAlgorithms lib encOrder compOrder (Some f) lastUsedHours attention
               sizeBytes prefs in
  Encryption res.1 ∈ encCandidates
  /\ Compression res.1 ∈ "none" :: compCandidates.
Proof.
  intros res. subst res. rewrite RecommendAlgorithms_some. cbn [fst Encryption Compression].
  split; [apply encWinner_in|].
  destruct (skipTest _ _ _); [left|right; apply compWinner_in].
Qed.

(** X2.  [SkipCompression] is set exactly when [Compression] is "none"; it
    is set only for the categories image, video, audio and archive, and a
    file of one of these categories gets "none" or "lz4", never zip, lzma2
    or zstd, and no zstd level. *)
Theorem skip_iff_none (lib : GoLib) (encOrder compOrder : list string)
    (f : File) (lastUsedHours : Z) (attention : float) (sizeBytes : Z) (prefs : Prefs) :
  let res := RecommendAlgorithms lib encOrder compOrder (Some f) lastUsedHours attention
               sizeBytes prefs in
  (SkipCompression res.1 = true <-> Compression res.1 = "none")
  /\ (SkipCompression res.1 = true -> alreadyCompressed (DetectedCategory res.1) = true)
  /\ (alreadyCompressed (DetectedCategory res.1) = true ->
      (Compression res.1 = "none" \/ Compression res.1 = "lz4") /\ ZstdLevel res.1 = 0%Z).
Proof.
  intros res. subst res. rewrite RecommendAlgorithms_some.
  cbn [fst Compression SkipCompression DetectedCategory ZstdLevel].
  set (sg := preprocess lib f lastUsedHours attention sizeBytes prefs).
  pose proof (compWinner_in compOrder sg) as Hin.
  split; [|split].
  - destruct (skipTest sg _ _); [tauto|].
    split; [discriminate|]. intros E. rewrite E in Hin.
    apply cand_cases_comp in Hin. destruct Hin as [H|[H|[H|H]]]; discriminate.
  - unfold skipTest. rewrite isAlreadyCompressed_spec.
    intros H. apply andb_true_iff in H as [H _]. exact H.
  - intros Hac. rewrite <- isAlreadyCompressed_spec in Hac.
    destruct (skipTest sg (compWinner compOrder sg).1 (compWinner compOrder sg).2) eqn:Hs.
    + split; [left|]; reflexivity.
    + unfold skipTest in Hs. rewrite Hac in Hs. cbn [andb] in Hs.
      apply orb_false_iff in Hs as [Hlow _].
      destruct (compWinner_already compOrder sg Hac) as [E|E]; [|congruence].
      rewrite E. split; [right|]; reflexivity.
Qed.

(** X3.  [ZstdLevel] is one of 1, 3, 5, 7, 9, 12 when the compression is
    zstd and stays 0 otherwise: the clamp to [1,22] of lines 238-243 never
    changes a level. *)
Theorem zstd_level_values (lib : GoLib) (encOrder compOrder : list string)
    (f : File) (lastUsedHours : Z) (attention : float) (sizeBytes : Z) (prefs : Prefs) :
  let res := RecommendAlgorithms lib encOrder compOrder (Some f) lastUsedHours attention
               sizeBytes prefs in
  (Compression res.1 = "zstd" -> ZstdLevel res.1 ∈ zstdLevels)
  /\ (Compression res.1 ≠ "zstd" -> ZstdLevel res.1 = 0%Z).
Proof.
  intros res. subst res. rewrite RecommendAlgorithms_some. cbn [fst Compression ZstdLevel].
  set (sg := preprocess lib f lastUsedHours attention sizeBytes prefs).
  set (compression := if skipTest sg _ _ then "none" else _).
  split.
  - intros ->. cbn [String.eqb Ascii.eqb Bool.eqb].
    unfold zstdLevel, zstdLevels.
    destruct (String.eqb (sg_tradeoff sg) "speed"); [left|].
    destruct (String.eqb (sg_tradeoff sg) "balanced").
    { destruct (fgt (sg_sizeMB sg) 200); [right; left|].
      destruct (fgt (sg_sizeMB sg) 50); [right; right; left|right; left]. }
    destruct (String.eqb (sg_tradeoff sg) "ratio"); [|right; left].
    destruct (fgt (sg_sizeMB sg) 500); [do 5 right; left|].
    destruct (fgt (sg_sizeMB sg) 200); [do 4 right; left|do 3 right; left].
  - intros Hne. destruct (String.eqb_spec compression "zstd"); [contradiction|reflexivity].
Qed.

(** X4.  The score map of a successful call has exactly seven keys: the
    three candidates under [enc_] and the four under [comp_]. *)
Theorem score_map_keys (lib : GoLib) (encOrder compOrder : list string)
    (f : File) (lastUsedHours : Z) (attention : float) (sizeBytes : Z) (prefs : Prefs)
    (k : string) :
  let res := RecommendAlgorithms lib encOrder compOrder (Some f) lastUsedHours attention
               sizeBytes prefs in
  is_Some (ScoreBreakdown res.1 !! k) <-> k ∈ scoreKeys.
Proof.
  intros res. subst res. rewrite RecommendAlgorithms_some. cbn [fst ScoreBreakdown].
  set (sg := preprocess lib f lastUsedHours attention sizeBytes prefs).
  unfold scoreKeys. rewrite elem_of_app, !list_elem_of_fmap.
  split.
  - intros Hsome.
    destruct (decide (k ∈ (fun c => "comp_" ++ c) <$> compCandidates)) as [Hc|Hc];
      [right; apply list_elem_of_fmap in Hc; exact Hc|].
    destruct (decide (k ∈ (fun c => "enc_" ++ c) <$> encCandidates)) as [He|He];
      [left; apply list_elem_of_fmap in He; exact He|].
    exfalso. unfold finalBreakdown, compMaps, encMaps in Hsome.
    rewrite scoreLoop_breakdown_out in Hsome
      by (intros c Hin ->; apply Hc, list_elem_of_fmap; eauto).
    rewrite scoreLoop_breakdown_out in Hsome
      by (intros c Hin ->; apply He, list_elem_of_fmap; eauto).
    rewrite lookup_empty in Hsome. destruct Hsome as [x Hx]. discriminate.
  - intros [(c & -> & Hc)|(c & -> & Hc)].
    + rewrite breakdown_enc by exact Hc. eauto.
    + rewrite breakdown_comp by exact Hc. eauto.
Qed.

(** ** What the result depends on *)

(** The result of a call on a non-nil handle is a function of the locals
    that lines 43-79 leave. *)
Lemma RecommendAlgorithms_signals lib encOrder compOrder f1 h1 a1 sz1 p1 f2 h2 a2 sz2 p2 :
  preprocess lib f1 h1 a1 sz1 p1 = preprocess lib f2 h2 a2 sz2 p2 ->
  RecommendAlgorithms lib encOrder compOrder (Some f1) h1 a1 sz1 p1
  = RecommendAlgorithms lib encOrder compOrder (Some f2) h2 a2 sz2 p2.
Proof. intros E. rewrite !RecommendAlgorithms_some, E. reflexivity. Qed.

Lemma clampAttention_below a : flt a 0 = true -> clampAttention a = 0.
Proof. unfold clampAttention. intros ->. reflexivity. Qed.

Lemma clampAttention_above a : fgt a 1 = true -> clampAttention a = 1.
Proof.
  unfold clampAttention. intros H1. rewrite H1.
  destruct (flt a 0) eqn:H0; [|reflexivity].
  (* 0 > a and a > 1 would give 0 > 1 *)
  assert (fgt 0 1 = true) as H by (apply (fgt_trans 0 a 1); assumption).
  discriminate H.
Qed.

(** X5.  Out-of-range signals are clamped, not rejected: an attention below
    0 gives the result of attention 0, an attention above 1 the result of
    attention 1, and a negative [lastUsedHours] the result of 0 hours. *)
Theorem out_of_range_signals (lib : GoLib) (encOrder compOrder : list string)
    (f : File) (lastUsedHours : Z) (attention : float) (sizeBytes : Z) (prefs : Prefs) :
  let call h a := RecommendAlgorithms lib encOrder compOrder (Some f) h a sizeBytes prefs in
  (flt attention 0 = true -> call lastUsedHours attention = call lastUsedHours 0)
  /\ (fgt attention 1 = true -> call lastUsedHours attention = call lastUsedHours 1)
  /\ ((lastUsedHours < 0)%Z -> call lastUsedHours attention = call 0%Z attention).
Proof.
  intros call. subst call. cbn beta.
  split; [|split]; intros H; apply RecommendAlgorithms_signals; unfold preprocess;
    destruct (detectFileCategory lib f) as [m c].
  - rewrite (clampAttention_below _ H). reflexivity.
  - rewrite (clampAttention_above _ H). reflexivity.
  - unfold clampHours. destruct (Z.ltb_spec lastUsedHours 0); [reflexivity|lia].
Qed.

(** NaN is absorbing for [+] and compares with nothing. *)
Lemma add_nan_l x : nan + x = nan.
Proof.
  apply FloatAxioms.Prim2SF_inj. rewrite FloatAxioms.add_spec.
  change (Prim2SF nan) with S754_nan. reflexivity.
Qed.

Lemma fgt_nan_l x : fgt nan x = false.
Proof.
  unfold fgt. rewrite FloatAxioms.ltb_spec. change (Prim2SF nan) with S754_nan.
  unfold SFltb. destruct (Prim2SF x) as [[]|[]| |[] m e]; reflexivity.
Qed.

Lemma fma_nan_factor y z : fma nan y z = nan.
Proof.
  unfold fma. change (Prim2SF nan) with S754_nan. unfold fma_SF.
  cbn [SFmul SFadd]. reflexivity.
Qed.

Lemma fma_nan_addend x y : fma x y nan = nan.
Proof.
  unfold fma. change (Prim2SF nan) with S754_nan. unfold fma_SF.
  destruct (Prim2SF x) as [[]|[]| |[] mx ex], (Prim2SF y) as [[]|[]| |[] my ey];
    reflexivity.
Qed.

Lemma encScore_nan sg c :
  sg_attention sg = nan -> c ∈ encCandidates -> encScore sg c = nan.
Proof.
  intros Ha Hc. unfold encScore. rewrite Ha.
  apply cand_cases_enc in Hc as [->|[->| ->]]; cbn [String.eqb Ascii.eqb Bool.eqb].
  - assert (forall b, 0.1 + mulAdd (fuse_gcm_bonus (sg_fusion sg)) nan 0.6 b = nan) as Hb.
    { intros b. unfold mulAdd. destruct (fuse_gcm_bonus (sg_fusion sg)).
      - rewrite fma_nan_factor. reflexivity.
      - change (nan * 0.6) with nan. rewrite add_nan_l. reflexivity. }
    assert (forall x, addMul (fuse_gcm_recency (sg_fusion sg)) nan x 0.6 = nan) as Hr.
    { intros x. unfold addMul. destruct (fuse_gcm_recency (sg_fusion sg));
        [apply fma_nan_addend|apply add_nan_l]. }
    destruct (sg_aesni sg); rewrite Hb; apply Hr.
  - assert (mulAddMul (fuse_gcmsiv (sg_fusion sg)) nan 2.5 (sg_luhW sg) 1.2 = nan) as ->;
      [|reflexivity].
    unfold mulAddMul. destruct (fuse_gcmsiv (sg_fusion sg)).
    + change (nan * 2.5) with nan. apply add_nan_l.
    + apply fma_nan_factor.
    + change (nan * 2.5) with nan. apply fma_nan_addend.
  - unfold addMul. destruct (fuse_xchacha (sg_fusion sg)).
    + apply fma_nan_factor.
    + destruct (fgt (sg_sizeMB sg) 100), (String.eqb (sg_tradeoff sg) "speed"); reflexivity.
Qed.

(** X6.  The clamp lets a NaN attention through: the three encryption
    scores are then NaN, no score passes the [>] test of the selection loop,
    and the default of lines 118-120 makes the call return aes256gcm, in
    whatever order the score map is visited. *)
Theorem nan_attention (lib : GoLib) (encOrder compOrder : list string)
    (f : File) (lastUsedHours : Z) (sizeBytes : Z) (prefs : Prefs) :
  let res := RecommendAlgorithms lib encOrder compOrder (Some f) lastUsedHours nan
               sizeBytes prefs in
  res.2 = None
  /\ Encryption res.1 = "aes256gcm"
  /\ forall c, c ∈ encCandidates -> ScoreBreakdown res.1 !! ("enc_" ++ c) = Some nan.
Proof.
  intros res. subst res. rewrite RecommendAlgorithms_some.
  cbn [fst snd Encryption ScoreBreakdown].
  set (sg := preprocess lib f lastUsedHours nan sizeBytes prefs).
  assert (sg_attention sg = nan) as Ha.
  { subst sg. unfold preprocess. destruct (detectFileCategory lib f). reflexivity. }
  split; [reflexivity|]. split.
  - rewrite encWinner_eq. cbn [fst].
    destruct (pick_fold (encMaps sg).1 encOrder ("", math_Inf_neg))
      as [[E|(_ & Hl & Hgt)] _].
    + unfold rangePick. rewrite E. reflexivity.
    + apply encMaps_key in Hl as [Hin Hv].
      rewrite Hv, (encScore_nan sg _ Ha Hin), fgt_nan_l in Hgt. discriminate.
  - intros c Hc. rewrite breakdown_enc by exact Hc.
    rewrite (encScore_nan sg c Ha Hc). reflexivity.
Qed.

(** X7.  The preferences act only through the normalized tradeoff and
    [AssumeAESNI]: two preference values that agree on these give the same
    result, so case and surrounding blanks of [Tradeoff] and the value of
    [ForceDetectExt] never matter. *)
Theorem prefs_through_normalization (lib : GoLib) (encOrder compOrder : list string)
    (f : File) (lastUsedHours : Z) (attention : float) (sizeBytes : Z) (p1 p2 : Prefs) :
  normTradeoff lib p1 = normTradeoff lib p2 ->
  AssumeAESNI p1 = AssumeAESNI p2 ->
  RecommendAlgorithms lib encOrder compOrder (Some f) lastUsedHours attention sizeBytes p1
  = RecommendAlgorithms lib encOrder compOrder (Some f) lastUsedHours attention sizeBytes p2.
Proof.
  intros Ht Hn. apply RecommendAlgorithms_signals. unfold preprocess.
  destruct (detectFileCategory lib f). rewrite Ht, Hn. reflexivity.
Qed.

(** A shouted, padded "speed" with [ForceDetectExt] set, against plain
    "speed". *)
Lemma prefs_through_normalization_witness :
  normTradeoff hostLib shouted_prefs = normTradeoff hostLib speed_prefs
  /\ AssumeAESNI shouted_prefs = AssumeAESNI speed_prefs
  /\ RecommendAlgorithms hostLib encCandidates compCandidates (Some readme_file) 48 0.8 0
       shouted_prefs
     = RecommendAlgorithms hostLib encCandidates compCandidates (Some readme_file) 48 0.8 0
         speed_prefs.
Proof.
  assert (normTradeoff hostLib shouted_prefs = normTradeoff hostLib speed_prefs) as Ht
    by (vm_compute; reflexivity).
  split; [exact Ht|]. split; [reflexivity|].
  exact (prefs_through_normalization hostLib encCandidates compCandidates readme_file 48 0.8 0
           shouted_prefs speed_prefs Ht eq_refl).
Defined.

(** X8.  A caller that passes no size (zero or negative) gets the result of
    passing the size [Stat] reports, when that size is positive. *)
Theorem size_from_stat (lib : GoLib) (encOrder compOrder : list string)
    (f : File) (lastUsedHours : Z) (attention : float) (sizeBytes size : Z) (prefs : Prefs) :
  (sizeBytes <= 0)%Z -> Stat f = Some size -> (0 < size)%Z ->
  RecommendAlgorithms lib encOrder compOrder (Some f) lastUsedHours attention sizeBytes prefs
  = RecommendAlgorithms lib encOrder compOrder (Some f) lastUsedHours attention size prefs.
Proof.
  intros Hsz Hstat Hpos. apply RecommendAlgorithms_signals. unfold preprocess.
  assert (effectiveSize f sizeBytes = effectiveSize f size) as ->; [|reflexivity].
  unfold effectiveSize. rewrite Hstat.
  destruct (Z.leb_spec sizeBytes 0); [|lia].
  destruct (Z.leb_spec size 0); [lia|].
  destruct (Z.ltb_spec size 0); [lia|reflexivity].
Qed.

(** The 600 MiB text file, asked with size 0 and with its size. *)
Lemma size_from_stat_witness :
  (0 <= 0)%Z /\ Stat big_text = Some MiB600 /\ (0 < MiB600)%Z
  /\ big_text_call
     = RecommendAlgorithms hostLib encCandidates compCandidates (Some big_text) 0 0 MiB600
         ratio_prefs.
Proof.
  assert (0 < MiB600)%Z as Hpos by (unfold MiB600; lia).
  split; [lia|]. split; [reflexivity|]. split; [exact Hpos|].
  exact (size_from_stat hostLib encCandidates compCandidates big_text 0 0 0 MiB600 ratio_prefs
           (Z.le_refl 0) eq_refl Hpos).
Defined.

(** The scoring loop only reads the scores of its candidates. *)
Lemma scoreLoop_ext prefix s1 s2 cands : forall scores bd,
  (forall c, c ∈ cands -> s1 c = s2 c) ->
  scoreLoop prefix s1 cands scores bd = scoreLoop prefix s2 cands scores bd.
Proof.
  induction cands as [|c0 cands IH]; intros scores bd Heq; [reflexivity|].
  rewrite !scoreLoop_cons, (Heq c0) by left.
  apply IH. intros c Hc. apply Heq. right. exact Hc.
Qed.

(** The compression side reads the category, the tradeoff and the size. *)
Lemma compScore_reads sg1 sg2 c :
  sg_category sg1 = sg_category sg2 -> sg_tradeoff sg1 = sg_tradeoff sg2 ->
  sg_sizeMB sg1 = sg_sizeMB sg2 -> compScore sg1 c = compScore sg2 c.
Proof. intros Hc Ht Hs. unfold compScore. rewrite Hc, Ht, Hs. reflexivity. Qed.

(** The encryption side reads everything but the category and the MIME type. *)
Lemma encScore_reads sg1 sg2 c :
  sg_attention sg1 = sg_attention sg2 -> sg_luhW sg1 = sg_luhW sg2 ->
  sg_sizeMB sg1 = sg_sizeMB sg2 -> sg_tradeoff sg1 = sg_tradeoff sg2 ->
  sg_aesni sg1 = sg_aesni sg2 -> sg_fusion sg1 = sg_fusion sg2 ->
  encScore sg1 c = encScore sg2 c.
Proof.
  intros Ha Hw Hs Ht Hn Hf. unfold encScore. rewrite Ha, Hw, Hs, Ht, Hn, Hf. reflexivity.
Qed.

(** X9.  The usage signals never influence the compression side: for the
    same file, size and tradeoff, the compression, the skip flag, the zstd
    level and the four compression scores are the same whatever the
    attention, the hours since last use, [AssumeAESNI], [ForceDetectExt] and
    the order in which the encryption map is visited. *)
Theorem compression_ignores_usage (lib : GoLib) (encOrder1 encOrder2 compOrder : list string)
    (f : File) (sizeBytes : Z) (tradeoff : string)
    (hours1 hours2 : Z) (attention1 attention2 : float) (aesni1 aesni2 force1 force2 : bool) :
  let r1 := RecommendAlgorithms lib encOrder1 compOrder (Some f) hours1 attention1 sizeBytes
              {| Tradeoff := tradeoff; AssumeAESNI := aesni1; ForceDetectExt := force1 |} in
  let r2 := RecommendAlgorithms lib encOrder2 compOrder (Some f) hours2 attention2 sizeBytes
              {| Tradeoff := tradeoff; AssumeAESNI := aesni2; ForceDetectExt := force2 |} in
  Compression r1.1 = Compression r2.1
  /\ SkipCompression r1.1 = SkipCompression r2.1
  /\ ZstdLevel r1.1 = ZstdLevel r2.1
  /\ forall c, c ∈ compCandidates ->
       ScoreBreakdown r1.1 !! ("comp_" ++ c) = ScoreBreakdown r2.1 !! ("comp_" ++ c).
Proof.
  intros r1 r2. subst r1 r2. rewrite !RecommendAlgorithms_some.
  cbn [fst Compression SkipCompression ZstdLevel ScoreBreakdown].
  set (p1 := {| Tradeoff := tradeoff; AssumeAESNI := aesni1; ForceDetectExt := force1 |}).
  set (p2 := {| Tradeoff := tradeoff; AssumeAESNI := aesni2; ForceDetectExt := force2 |}).
  destruct (preprocess_fields lib f hours1 attention1 sizeBytes p1)
    as (_ & _ & Hs1 & Ht1 & _ & Hc1).
  destruct (preprocess_fields lib f hours2 attention2 sizeBytes p2)
    as (_ & _ & Hs2 & Ht2 & _ & Hc2).
  set (sg1 := preprocess lib f hours1 attention1 sizeBytes p1) in *.
  set (sg2 := preprocess lib f hours2 attention2 sizeBytes p2) in *.
  assert (sg_category sg1 = sg_category sg2) as Hc
    by (rewrite <- Hc2 in Hc1; congruence).
  assert (sg_tradeoff sg1 = sg_tradeoff sg2) as Ht by (rewrite Ht1, Ht2; reflexivity).
  assert (sg_sizeMB sg1 = sg_sizeMB sg2) as Hs by (rewrite Hs1, Hs2; reflexivity).
  assert (compWinner compOrder sg1 = compWinner compOrder sg2) as Hw.
  { rewrite !compWinner_eq. unfold compMaps.
    rewrite (scoreLoop_ext "comp_" (compScore sg1) (compScore sg2))
      by (intros c _; apply compScore_reads; assumption).
    reflexivity. }
  assert (forall w s, skipTest sg1 w s = skipTest sg2 w s) as Hskip
    by (intros w s; unfold skipTest; rewrite Hc, Ht; reflexivity).
  rewrite Hw, Hskip, Ht, Hs. repeat split.
  intros c Hin. rewrite !breakdown_comp by exact Hin.
  rewrite (compScore_reads sg1 sg2 c Hc Ht Hs). reflexivity.
Qed.

(** X10.  The content and the name of the file never influence the
    encryption side: two files of the same effective size get the same
    encryption and the same three encryption scores, in whatever order the
    compression map is visited. *)
Theorem encryption_ignores_content (lib : GoLib) (encOrder compOrder1 compOrder2 : list string)
    (f1 f2 : File) (size1 size2 : Z) (lastUsedHours : Z) (attention : float) (prefs : Prefs) :
  effectiveSize f1 size1 = effectiveSize f2 size2 ->
  let r1 := RecommendAlgorithms lib encOrder compOrder1 (Some f1) lastUsedHours attention
              size1 prefs in
  let r2 := RecommendAlgorithms lib encOrder compOrder2 (Some f2) lastUsedHours attention
              size2 prefs in
  Encryption r1.1 = Encryption r2.1
  /\ forall c, c ∈ encCandidates ->
       ScoreBreakdown r1.1 !! ("enc_" ++ c) = ScoreBreakdown r2.1 !! ("enc_" ++ c).
Proof.
  intros Hsize r1 r2. subst r1 r2. rewrite !RecommendAlgorithms_some.
  cbn [fst Encryption ScoreBreakdown].
  destruct (preprocess_fields lib f1 lastUsedHours attention size1 prefs)
    as (Ha1 & Hw1 & Hs1 & Ht1 & Hn1 & _).
  destruct (preprocess_fields lib f2 lastUsedHours attention size2 prefs)
    as (Ha2 & Hw2 & Hs2 & Ht2 & Hn2 & _).
  set (sg1 := preprocess lib f1 lastUsedHours attention size1 prefs) in *.
  set (sg2 := preprocess lib f2 lastUsedHours attention size2 prefs) in *.
  assert (sg_sizeMB sg1 = sg_sizeMB sg2) as Hs
    by (rewrite Hs1, Hs2; unfold sizeInMB; rewrite Hsize; reflexivity).
  assert (sg_fusion sg1 = sg_fusion sg2) as Hf
    by (subst sg1 sg2; rewrite !preprocess_fusion; reflexivity).
  assert (forall c, encScore sg1 c = encScore sg2 c) as Hscore
    by (intros c; apply encScore_reads; congruence).
  split.
  - rewrite !encWinner_eq. unfold encMaps.
    rewrite (scoreLoop_ext "enc_" (encScore sg1) (encScore sg2)) by (intros c _; apply Hscore).
    reflexivity.
  - intros c Hin. rewrite !breakdown_enc by exact Hin. rewrite Hscore. reflexivity.
Qed.

(** A five-byte text file and an eight-byte PNG image, both asked with an
    explicit size of 4096 bytes. *)
Lemma encryption_ignores_content_witness :
  effectiveSize readme_file 4096 = effectiveSize small_photo 4096
  /\ Encryption (RecommendAlgorithms hostLib encCandidates compCandidates (Some readme_file)
                   48 0.8 4096 readme_prefs).1
     = Encryption (RecommendAlgorithms hostLib encCandidates compCandidates (Some small_photo)
                     48 0.8 4096 readme_prefs).1.
Proof.
  split; [reflexivity|].
  exact (proj1 (encryption_ignores_content hostLib encCandidates compCandidates compCandidates
                  readme_file small_photo 4096 4096 48 0.8 readme_prefs eq_refl)).
Defined.

(** ** Ties go to the key visited first *)

(** X11.  The encryption returned is the first candidate, in the order in
    which the score map is visited, whose score no candidate exceeds: if
    every candidate visited before [k] scores strictly less than [k], and no
    candidate visited after [k] scores more, the call returns [k].  ([k]'s
    score must be a number: a NaN never passes the [>] test.) *)
Theorem tie_goes_to_first_visited (lib : GoLib) (before : list string) (k : string)
    (after compOrder : list string)
    (f : File) (lastUsedHours : Z) (attention : float) (sizeBytes : Z) (prefs : Prefs) :
  (before ++ k :: after)%list ≡ₚ encCandidates ->
  fgt (encScore (preprocess lib f lastUsedHours attention sizeBytes prefs) k) math_Inf_neg
    = true ->
  (forall c, c ∈ before ->
     fgt (encScore (preprocess lib f lastUsedHours attention sizeBytes prefs) k)
         (encScore (preprocess lib f lastUsedHours attention sizeBytes prefs) c) = true) ->
  (forall c, c ∈ after ->
     fgt (encScore (preprocess lib f lastUsedHours attention sizeBytes prefs) c)
         (encScore (preprocess lib f lastUsedHours attention sizeBytes prefs) k) = false) ->
  Encryption (RecommendAlgorithms lib (before ++ k :: after)%list compOrder (Some f) lastUsedHours
                attention sizeBytes prefs).1 = k.
Proof.
  intros Hperm Hinf Hbefore Hafter. rewrite RecommendAlgorithms_some. cbn [fst Encryption].
  set (sg := preprocess lib f lastUsedHours attention sizeBytes prefs) in *.
  assert (forall x, x ∈ (before ++ k :: after)%list <-> x ∈ encCandidates) as Hmem
    by (intros x; rewrite Hperm; reflexivity).
  assert (k ∈ encCandidates) as Hk by (apply Hmem, elem_of_app; right; left).
  rewrite encWinner_eq.
  rewrite (rangePick_first (encMaps sg).1 before k after (encScore sg k)).
  - cbn [fst]. unfold orDefault.
    destruct (String.eqb_spec k "") as [->|_]; [|reflexivity].
    apply cand_cases_enc in Hk. destruct Hk as [H|[H|H]]; discriminate.
  - apply encMaps_scores. exact Hk.
  - exact Hinf.
  - intros k' v' Hin Hl. apply encMaps_key in Hl as [_ ->]. apply Hbefore. exact Hin.
  - intros k' v' Hin Hl. apply encMaps_key in Hl as [_ ->]. apply Hafter. exact Hin.
Qed.

(** The tied call, visited from xchacha20poly1305: it is first, aes256gcm
    scores below it and aes256gcmsiv does not score above it. *)
Lemma tie_goes_to_first_visited_witness :
  ([] ++ "xchacha20poly1305" :: ["aes256gcm"; "aes256gcmsiv"])%list ≡ₚ encCandidates
  /\ Encryption (tie_call rotation2).1 = "xchacha20poly1305".
Proof.
  assert (([] ++ "xchacha20poly1305" :: ["aes256gcm"; "aes256gcmsiv"])%list
          ≡ₚ encCandidates)
    as Hperm
    by exact (Permutation_app_comm ["xchacha20poly1305"] ["aes256gcm"; "aes256gcmsiv"]).
  split; [exact Hperm|].
  apply (tie_goes_to_first_visited hostLib [] "xchacha20poly1305"
           ["aes256gcm"; "aes256gcmsiv"] compCandidates readme_file 168 0 0 speed_prefs Hperm).
  - vm_compute. reflexivity.
  - intros c Hc. inversion Hc.
  - intros c Hc. apply elem_of_cons in Hc as [->|Hc]; [vm_compute; reflexivity|].
    apply elem_of_cons in Hc as [->|Hc]; [vm_compute; reflexivity|inversion Hc].
Defined.

(** ** The compression table, read by tradeoff and size *)

(** The size tests of the compression loop are tests on one number. *)
Lemma size_thresholds x :
  (fgt x 500 = true -> fgt x 100 = true)
  /\ (fgt x 100 = true -> fgt x 50 = true)
  /\ (flt x 10 = true -> fgt x 50 = false).
Proof.
  split; [|split].
  - intros H. apply (fgt_trans x 500 100 H). reflexivity.
  - intros H. apply (fgt_trans x 100 50 H). reflexivity.
  - intros H. destruct (fgt x 50) eqn:E; [|reflexivity].
    assert (fgt 10 50 = true) as Habs by (apply (fgt_trans 10 x 50); assumption).
    discriminate Habs.
Qed.

(** Split on the four size tests and drop the combinations no number
    produces. *)
Ltac size_cases x :=
  let T1 := fresh "T" in let T2 := fresh "T" in let T3 := fresh "T" in
  destruct (size_thresholds x) as (T1 & T2 & T3);
  destruct (fgt x 500); destruct (fgt x 100); destruct (fgt x 50); destruct (flt x 10);
  try discriminate (T1 eq_refl); try discriminate (T2 eq_refl);
  try discriminate (T3 eq_refl); clear T1 T2 T3.

(** The candidate the table favours for a compressible file, by tradeoff and
    size. *)
Lemma table_winner_strict sg k c :
  isAlreadyCompressed (sg_category sg) = false ->
  (sg_tradeoff sg = "balanced" /\ k = "zstd")
  \/ (sg_tradeoff sg = "ratio"
      /\ k = if fgt (sg_sizeMB sg) 500 then "zstd"
             else if fgt (sg_sizeMB sg) 100 then "lzma2"
             else if fgt (sg_sizeMB sg) 50 then "zstd" else "lzma2")
  \/ (sg_tradeoff sg = "speed" /\ k = "lz4" /\ fgt (sg_sizeMB sg) 500 = false) ->
  c ∈ compCandidates -> c ≠ k ->
  fgt (compScore sg k) (compScore sg c) = true.
Proof.
  intros Hac Hk Hc Hne. unfold compScore. rewrite Hac.
  destruct Hk as [[Ht ->]|[[Ht ->]|(Ht & -> & H500)]]; rewrite Ht; try rewrite H500 in *;
    revert Hne; apply cand_cases_comp in Hc as [->|[->|[->| ->]]];
    cbn [String.eqb Ascii.eqb Bool.eqb orb andb];
    size_cases (sg_sizeMB sg); intros Hne; try congruence; try reflexivity;
    try discriminate.
Qed.

(** X12.  With tradeoff balanced, a file that is not of an already-compressed
    category gets zstd at every size, with level 5 between 50 and 200 MiB
    and level 3 below and above. *)
Theorem balanced_always_zstd (lib : GoLib) (encOrder compOrder : list string)
    (f : File) (lastUsedHours : Z) (attention : float) (sizeBytes : Z) (prefs : Prefs) :
  compOrder ≡ₚ compCandidates ->
  alreadyCompressed (detectFileCategory lib f).2 = false ->
  normTradeoff lib prefs = "balanced" ->
  let res := RecommendAlgorithms lib encOrder compOrder (Some f) lastUsedHours attention
               sizeBytes prefs in
  let sizeMB := sizeInMB f sizeBytes in
  Compression res.1 = "zstd"
  /\ SkipCompression res.1 = false
  /\ ZstdLevel res.1 = (if fgt sizeMB 200 then 3 else if fgt sizeMB 50 then 5 else 3)%Z.
Proof.
  intros Hperm Hcat Ht res sizeMB. subst res sizeMB. rewrite RecommendAlgorithms_some.
  cbn [fst Compression SkipCompression ZstdLevel].
  destruct (preprocess_fields lib f lastUsedHours attention sizeBytes prefs)
    as (_ & _ & Hsz & Ht' & _ & Hcat').
  set (sg := preprocess lib f lastUsedHours attention sizeBytes prefs) in *.
  assert (isAlreadyCompressed (sg_category sg) = false) as Hac
    by (rewrite isAlreadyCompressed_spec, <- Hcat, <- Hcat'; reflexivity).
  rewrite Ht in Ht'.
  rewrite (compWinner_strict compOrder sg "zstd" Hperm)
    by (try (right; right; right; left);
        intros c Hc Hne; apply table_winner_strict; auto).
  unfold skipTest. rewrite Hac, Ht', Hsz. cbn [fst snd andb].
  split; [reflexivity|]. split; [reflexivity|].
  cbn [String.eqb Ascii.eqb Bool.eqb]. unfold zstdLevel.
  cbn [String.eqb Ascii.eqb Bool.eqb].
  destruct (fgt (sizeInMB f sizeBytes) 200); [reflexivity|].
  destruct (fgt (sizeInMB f sizeBytes) 50); reflexivity.
Qed.

(** The README's file, asked with tradeoff balanced. *)
Lemma balanced_always_zstd_witness :
  compCandidates ≡ₚ compCandidates
  /\ alreadyCompressed (detectFileCategory hostLib readme_file).2 = false
  /\ normTradeoff hostLib balanced_prefs = "balanced"
  /\ Compression (RecommendAlgorithms hostLib encCandidates compCandidates (Some readme_file)
                    48 0.8 0 balanced_prefs).1 = "zstd".
Proof.
  assert (alreadyCompressed (detectFileCategory hostLib readme_file).2 = false) as Hc
    by (vm_compute; reflexivity).
  assert (normTradeoff hostLib balanced_prefs = "balanced") as Ht by (vm_compute; reflexivity).
  split; [reflexivity|]. split; [exact Hc|]. split; [exact Ht|].
  exact (proj1 (balanced_always_zstd hostLib encCandidates compCandidates readme_file 48 0.8 0
                  balanced_prefs (Permutation_refl _) Hc Ht)).
Defined.

(** X13.  With tradeoff ratio, a file that is not of an already-compressed
    category gets lzma2 up to 50 MiB, zstd above 50 up to 100, lzma2 again
    above 100 up to 500, and zstd above 500. *)
Theorem ratio_by_size (lib : GoLib) (encOrder compOrder : list string)
    (f : File) (lastUsedHours : Z) (attention : float) (sizeBytes : Z) (prefs : Prefs) :
  compOrder ≡ₚ compCandidates ->
  alreadyCompressed (detectFileCategory lib f).2 = false ->
  normTradeoff lib prefs = "ratio" ->
  let res := RecommendAlgorithms lib encOrder compOrder (Some f) lastUsedHours attention
               sizeBytes prefs in
  let sizeMB := sizeInMB f sizeBytes in
  Compression res.1
  = (if fgt sizeMB 500 then "zstd"
     else if fgt sizeMB 100 then "lzma2"
     else if fgt sizeMB 50 then "zstd" else "lzma2")
  /\ SkipCompression res.1 = false.
Proof.
  intros Hperm Hcat Ht res sizeMB. subst res sizeMB. rewrite RecommendAlgorithms_some.
  cbn [fst Compression SkipCompression].
  destruct (preprocess_fields lib f lastUsedHours attention sizeBytes prefs)
    as (_ & _ & Hsz & Ht' & _ & Hcat').
  set (sg := preprocess lib f lastUsedHours attention sizeBytes prefs) in *.
  assert (isAlreadyCompressed (sg_category sg) = false) as Hac
    by (rewrite isAlreadyCompressed_spec, <- Hcat, <- Hcat'; reflexivity).
  rewrite Ht in Ht'. rewrite <- Hsz.
  set (k := if fgt (sg_sizeMB sg) 500 then "zstd" else _).
  assert (k ∈ compCandidates) as Hk.
  { subst k. destruct (fgt (sg_sizeMB sg) 500); [right; right; right; left|].
    destruct (fgt (sg_sizeMB sg) 100); [right; left|].
    destruct (fgt (sg_sizeMB sg) 50); [right; right; right; left|right; left]. }
  rewrite (compWinner_strict compOrder sg k Hperm Hk)
    by (intros c Hc Hne; apply table_winner_strict; auto).
  unfold skipTest. rewrite Hac. cbn [fst snd andb]. split; reflexivity.
Qed.

(** The 600 MiB text file with tradeoff ratio. *)
Lemma ratio_by_size_witness :
  compCandidates ≡ₚ compCandidates
  /\ alreadyCompressed (detectFileCategory hostLib big_text).2 = false
  /\ normTradeoff hostLib ratio_prefs = "ratio"
  /\ SkipCompression big_text_call.1 = false.
Proof.
  assert (alreadyCompressed (detectFileCategory hostLib big_text).2 = false) as Hc
    by (vm_compute; reflexivity).
  assert (normTradeoff hostLib ratio_prefs = "ratio") as Ht by (vm_compute; reflexivity).
  split; [reflexivity|]. split; [exact Hc|]. split; [exact Ht|].
  exact (proj2 (ratio_by_size hostLib encCandidates compCandidates big_text 0 0 0
                  ratio_prefs (Permutation_refl _) Hc Ht)).
Defined.

Lemma speed_winner (lib : GoLib) (encOrder compOrder : list string) (f : File)
    (lastUsedHours : Z) (attention : float) (sizeBytes : Z) (prefs : Prefs) :
  compOrder ≡ₚ compCandidates ->
  alreadyCompressed (detectFileCategory lib f).2 = false ->
  normTradeoff lib prefs = "speed" ->
  fgt (sizeInMB f sizeBytes) 500 = false ->
  let res := RecommendAlgorithms lib encOrder compOrder (Some f) lastUsedHours attention
               sizeBytes prefs in
  Compression res.1 = "lz4" /\ SkipCompression res.1 = false.
Proof.
  intros Hperm Hcat Ht H500 res. subst res. rewrite RecommendAlgorithms_some.
  cbn [fst Compression SkipCompression].
  destruct (preprocess_fields lib f lastUsedHours attention sizeBytes prefs)
    as (_ & _ & Hsz & Ht' & _ & Hcat').
  set (sg := preprocess lib f lastUsedHours attention sizeBytes prefs) in *.
  assert (isAlreadyCompressed (sg_category sg) = false) as Hac
    by (rewrite isAlreadyCompressed_spec, <- Hcat, <- Hcat'; reflexivity).
  rewrite Ht in Ht'. rewrite <- Hsz in H500.
  rewrite (compWinner_strict compOrder sg "lz4" Hperm)
    by (try (right; right; left);
        intros c Hc Hne; apply table_winner_strict; auto).
  unfold skipTest. rewrite Hac. cbn [fst snd andb]. split; reflexivity.
Qed.

(** X14.  With tradeoff speed, a file that is not of an already-compressed
    category and not above 50 MiB gets lz4. *)
Theorem speed_small_lz4 (lib : GoLib) (encOrder compOrder : list string) (f : File)
    (lastUsedHours : Z) (attention : float) (sizeBytes : Z) (prefs : Prefs) :
  compOrder ≡ₚ compCandidates ->
  alreadyCompressed (detectFileCategory lib f).2 = false ->
  normTradeoff lib prefs = "speed" ->
  fgt (sizeInMB f sizeBytes) 50 = false ->
  let res := RecommendAlgorithms lib encOrder compOrder (Some f) lastUsedHours attention
               sizeBytes prefs in
  Compression res.1 = "lz4" /\ SkipCompression res.1 = false.
Proof.
  intros Hperm Hcat Ht H50. apply speed_winner; try assumption.
  destruct (size_thresholds (sizeInMB f sizeBytes)) as (T1 & T2 & _).
  destruct (fgt (sizeInMB f sizeBytes) 500); [|reflexivity].
  rewrite (T2 (T1 eq_refl)) in H50. discriminate.
Qed.

(** The README's five-byte file, asked with tradeoff speed. *)
Lemma speed_small_lz4_witness :
  compCandidates ≡ₚ compCandidates
  /\ alreadyCompressed (detectFileCategory hostLib readme_file).2 = false
  /\ normTradeoff hostLib speed_prefs = "speed"
  /\ fgt (sizeInMB readme_file 0) 50 = false
  /\ Compression (RecommendAlgorithms hostLib encCandidates compCandidates (Some readme_file)
                    48 0.8 0 speed_prefs).1 = "lz4".
Proof.
  assert (alreadyCompressed (detectFileCategory hostLib readme_file).2 = false) as Hc
    by (vm_compute; reflexivity).
  assert (normTradeoff hostLib speed_prefs = "speed") as Ht by (vm_compute; reflexivity).
  assert (fgt (sizeInMB readme_file 0) 50 = false) as Hs by (vm_compute; reflexivity).
  split; [reflexivity|]. split; [exact Hc|]. split; [exact Ht|]. split; [exact Hs|].
  exact (proj1 (speed_small_lz4 hostLib encCandidates compCandidates readme_file 48 0.8 0
                  speed_prefs (Permutation_refl _) Hc Ht Hs)).
Defined.

(** X15.  With tradeoff speed, above 50 and up to 500 MiB, lz4 and zstd get
    0.1 + 2.2 and 0.1 + 1.2 + 1.0, which are equal as decimals; in binary64
    the first sum rounds one step above the second, so lz4 has the strictly
    higher score and the call returns lz4 in every iteration order. *)
Theorem speed_medium_lz4_by_rounding (lib : GoLib) (encOrder compOrder : list string)
    (f : File) (lastUsedHours : Z) (attention : float) (sizeBytes : Z) (prefs : Prefs) :
  compOrder ≡ₚ compCandidates ->
  alreadyCompressed (detectFileCategory lib f).2 = false ->
  normTradeoff lib prefs = "speed" ->
  fgt (sizeInMB f sizeBytes) 50 = true ->
  fgt (sizeInMB f sizeBytes) 500 = false ->
  let res := RecommendAlgorithms lib encOrder compOrder (Some f) lastUsedHours attention
               sizeBytes prefs in
  ScoreBreakdown res.1 !! "comp_lz4" = Some (0.1 + 2.2)
  /\ ScoreBreakdown res.1 !! "comp_zstd" = Some (0.1 + 1.2 + 1.0)
  /\ fgt (0.1 + 2.2) (0.1 + 1.2 + 1.0) = true
  /\ Compression res.1 = "lz4".
Proof.
  intros Hperm Hcat Ht H50 H500 res.
  destruct (speed_winner lib encOrder compOrder f lastUsedHours attention sizeBytes prefs
              Hperm Hcat Ht H500) as [Hcomp _].
  subst res. split; [|split; [|split; [reflexivity|exact Hcomp]]];
    rewrite RecommendAlgorithms_some; cbn [fst ScoreBreakdown];
    destruct (preprocess_fields lib f lastUsedHours attention sizeBytes prefs)
      as (_ & _ & Hsz & Ht' & _ & Hcat');
    set (sg := preprocess lib f lastUsedHours attention sizeBytes prefs) in *;
    assert (isAlreadyCompressed (sg_category sg) = false) as Hac
      by (rewrite isAlreadyCompressed_spec, <- Hcat, <- Hcat'; reflexivity);
    rewrite Ht in Ht'; rewrite <- Hsz in H50, H500;
    destruct (size_thresholds (sg_sizeMB sg)) as (_ & _ & T3).
  - etrans; [exact (breakdown_comp sg "lz4" ltac:(right; right; left))|].
    unfold compScore. rewrite Hac, Ht', H500.
    cbn [String.eqb Ascii.eqb Bool.eqb orb andb].
    destruct (flt (sg_sizeMB sg) 10); [|reflexivity].
    rewrite (T3 eq_refl) in H50. discriminate.
  - etrans; [exact (breakdown_comp sg "zstd" ltac:(right; right; right; left))|].
    unfold compScore. rewrite Hac, Ht', H500, H50. reflexivity.
Qed.

(** A 200 MiB file of the letter [a], asked with tradeoff speed. *)
Lemma speed_medium_lz4_by_rounding_witness :
  compCandidates ≡ₚ compCandidates
  /\ alreadyCompressed (detectFileCategory hostLib medium_text).2 = false
  /\ normTradeoff hostLib speed_prefs = "speed"
  /\ fgt (sizeInMB medium_text 0) 50 = true
  /\ fgt (sizeInMB medium_text 0) 500 = false
  /\ Compression (RecommendAlgorithms hostLib encCandidates compCandidates (Some medium_text)
                    0 0 0 speed_prefs).1 = "lz4".
Proof.
  assert (alreadyCompressed (detectFileCategory hostLib medium_text).2 = false) as Hc
    by (vm_compute; reflexivity).
  assert (normTradeoff hostLib speed_prefs = "speed") as Ht by (vm_compute; reflexivity).
  assert (fgt (sizeInMB medium_text 0) 50 = true) as H50 by (vm_compute; reflexivity).
  assert (fgt (sizeInMB medium_text 0) 500 = false) as H500 by (vm_compute; reflexivity).
  split; [reflexivity|]. split; [exact Hc|]. split; [exact Ht|].
  split; [exact H50|]. split; [exact H500|].
  exact (proj2 (proj2 (proj2
    (speed_medium_lz4_by_rounding hostLib encCandidates compCandidates medium_text 0 0 0
       speed_prefs (Permutation_refl _) Hc Ht H50 H500)))).
Defined.

Lemma compScore_speed_large sg :
  isAlreadyCompressed (sg_category sg) = false -> sg_tradeoff sg = "speed" ->
  fgt (sg_sizeMB sg) 500 = true ->
  compScore sg "zip" = 0.7 /\ compScore sg "lzma2" = 1.9
  /\ compScore sg "lz4" = 3.5 /\ compScore sg "zstd" = 3.5.
Proof.
  intros Hac Ht H500. unfold compScore. rewrite Hac, Ht, H500.
  destruct (size_thresholds (sg_sizeMB sg)) as (T1 & T2 & T3).
  rewrite (T1 H500), (T2 (T1 H500)).
  destruct (flt (sg_sizeMB sg) 10).
  { rewrite (T3 eq_refl) in T2. discriminate (T2 (T1 H500)). }
  repeat split; reflexivity.
Qed.

(** X16.  With tradeoff speed, above 500 MiB, lz4 and zstd tie exactly at
    3.5 (zip has 0.7, lzma2 1.9), and the call returns whichever of the two
    the [range] over the score map visits first. *)
Theorem speed_large_tie (lib : GoLib) (encOrder before : list string) (k : string)
    (after : list string) (f : File)
    (lastUsedHours : Z) (attention : float) (sizeBytes : Z) (prefs : Prefs) :
  (before ++ k :: after)%list ≡ₚ compCandidates ->
  k = "lz4" \/ k = "zstd" ->
  "lz4" ∉ before -> "zstd" ∉ before ->
  alreadyCompressed (detectFileCategory lib f).2 = false ->
  normTradeoff lib prefs = "speed" ->
  fgt (sizeInMB f sizeBytes) 500 = true ->
  let res := RecommendAlgorithms lib encOrder (before ++ k :: after)%list (Some f)
               lastUsedHours attention sizeBytes prefs in
  ScoreBreakdown res.1 !! "comp_lz4" = Some 3.5
  /\ ScoreBreakdown res.1 !! "comp_zstd" = Some 3.5
  /\ Compression res.1 = k
  /\ SkipCompression res.1 = false.
Proof.
  intros Hperm Hk Hlz4 Hzstd Hcat Ht H500 res. subst res. rewrite RecommendAlgorithms_some.
  cbn [fst Compression SkipCompression ScoreBreakdown].
  destruct (preprocess_fields lib f lastUsedHours attention sizeBytes prefs)
    as (_ & _ & Hsz & Ht' & _ & Hcat').
  set (sg := preprocess lib f lastUsedHours attention sizeBytes prefs) in *.
  assert (isAlreadyCompressed (sg_category sg) = false) as Hac
    by (rewrite isAlreadyCompressed_spec, <- Hcat, <- Hcat'; reflexivity).
  rewrite Ht in Ht'. rewrite <- Hsz in H500.
  destruct (compScore_speed_large sg Hac Ht' H500) as (Hzip & Hlzma & Hl & Hz).
  assert (forall x, x ∈ (before ++ k :: after)%list <-> x ∈ compCandidates) as Hmem
    by (intros x; rewrite Hperm; reflexivity).
  assert (compScore sg k = 3.5) as Hkv by (destruct Hk as [-> | ->]; assumption).
  assert (k ∈ compCandidates) as Hkin by (apply Hmem, elem_of_app; right; left).
  assert (compWinner (before ++ k :: after)%list sg = (k, 3.5)) as Hwin.
  { rewrite compWinner_eq.
    rewrite (rangePick_first (compMaps sg ∅).1 before k after 3.5).
    - cbn [fst snd]. unfold orDefault. destruct Hk as [-> | ->]; reflexivity.
    - rewrite <- Hkv. apply compMaps_scores_lookup. exact Hkin.
    - reflexivity.
    - intros k' v' Hin Hl'. apply compMaps_key in Hl' as [Hc ->].
      apply cand_cases_comp in Hc as [->|[->|[->| ->]]];
        [rewrite Hzip; reflexivity|rewrite Hlzma; reflexivity|contradiction|contradiction].
    - intros k' v' Hin Hl'. apply compMaps_key in Hl' as [Hc ->].
      apply cand_cases_comp in Hc as [->|[->|[->| ->]]];
        rewrite ?Hzip, ?Hlzma, ?Hl, ?Hz; reflexivity. }
  rewrite Hwin. cbn [fst snd]. unfold skipTest. rewrite Hac. cbn [andb].
  repeat split.
  - rewrite <- Hl. exact (breakdown_comp sg "lz4" ltac:(right; right; left)).
  - rewrite <- Hz. exact (breakdown_comp sg "zstd" ltac:(right; right; right; left)).
Qed.

(** The 600 MiB text file with tradeoff speed, the compression map visited in
    declaration order: lz4 comes before zstd. *)
Lemma speed_large_tie_witness :
  (["zip"; "lzma2"] ++ "lz4" :: ["zstd"])%list ≡ₚ compCandidates
  /\ alreadyCompressed (detectFileCategory hostLib big_text).2 = false
  /\ normTradeoff hostLib speed_prefs = "speed"
  /\ fgt (sizeInMB big_text 0) 500 = true
  /\ Compression (RecommendAlgorithms hostLib encCandidates
                    (["zip"; "lzma2"] ++ "lz4" :: ["zstd"])%list (Some big_text) 0 0 0
                    speed_prefs).1 = "lz4".
Proof.
  assert (alreadyCompressed (detectFileCategory hostLib big_text).2 = false) as Hc
    by (vm_compute; reflexivity).
  assert (normTradeoff hostLib speed_prefs = "speed") as Ht by (vm_compute; reflexivity).
  assert (fgt (sizeInMB big_text 0) 500 = true) as H500 by (vm_compute; reflexivity).
  split; [reflexivity|]. split; [exact Hc|]. split; [exact Ht|]. split; [exact H500|].
  refine (proj1 (proj2 (proj2
    (speed_large_tie hostLib encCandidates ["zip"; "lzma2"] "lz4" ["zstd"] big_text 0 0 0
       speed_prefs (Permutation_refl _) (or_introl eq_refl) _ _ Hc Ht H500)))).
  - intros H. apply elem_of_cons in H as [H|H]; [discriminate|].
    apply elem_of_cons in H as [H|H]; [discriminate|inversion H].
  - intros H. apply elem_of_cons in H as [H|H]; [discriminate|].
    apply elem_of_cons in H as [H|H]; [discriminate|inversion H].
Defined.

(** ** Classification *)

Lemma mime_category_values low c :
  mime_category low = Some c -> c ∈ ["text"; "image"; "audio"; "video"; "archive"].
Proof.
  unfold mime_category.
  destruct (strings_HasPrefix low "text/"); [intros [= <-]; left|].
  destruct (strings_HasPrefix low "image/"); [intros [= <-]; right; left|].
  destruct (strings_HasPrefix low "audio/"); [intros [= <-]; do 2 right; left|].
  destruct (strings_HasPrefix low "video/"); [intros [= <-]; do 3 right; left|].
  destruct (_ || _); [intros [= <-]; do 4 right; left|discriminate].
Qed.

(** X17.  Whatever the handle, its name, its content and the host's tables,
    the category is one of text, image, audio, video, archive, binary, and
    it is the category a successful call reports. *)
Theorem category_is_one_of_six (lib : GoLib) (encOrder compOrder : list string)
    (f : File) (lastUsedHours : Z) (attention : float) (sizeBytes : Z) (prefs : Prefs) :
  (detectFileCategory lib f).2 ∈ categories
  /\ DetectedCategory (RecommendAlgorithms lib encOrder compOrder (Some f) lastUsedHours
                         attention sizeBytes prefs).1 ∈ categories.
Proof.
  assert ((detectFileCategory lib f).2 ∈ categories) as H.
  { unfold detectFileCategory, categories.
    destruct (ReadAt f 512 0) as [data err].
    assert (forall ext low,
              match mime_category low with Some c => c | None => ext_category ext end
              ∈ ["text"; "image"; "audio"; "video"; "archive"; "binary"]) as Hcat.
    { intros ext low. destruct (mime_category low) as [c|] eqn:E.
      - apply mime_category_values in E.
        rewrite !elem_of_cons in *. rewrite elem_of_nil in E. tauto.
      - unfold ext_category. destruct (str_in ext text_extensions); [left|].
        destruct (String.eqb ext ".pdf"); [do 4 right; left|do 5 right; left]. }
    destruct err as [[|msg]|]; cbn [snd]; try apply Hcat. do 5 right. left. }
  split; [exact H|].
  rewrite RecommendAlgorithms_some. cbn [fst DetectedCategory].
  destruct (preprocess_fields lib f lastUsedHours attention sizeBytes prefs)
    as (_ & _ & _ & _ & _ & Hcat).
  rewrite <- Hcat in H. exact H.
Qed.

(** X18.  When the host maps the lowered extension of the name to a MIME
    type, that type is the one returned and the content is not looked at: two
    readable handles of the same name get the same MIME type and the same
    category, whatever their bytes. *)
Theorem extension_decides_mime (lib : GoLib) (f1 f2 : File) :
  Name f1 = Name f2 ->
  (forall msg, (ReadAt f1 512 0).2 ≠ Some (io_failure msg)) ->
  (forall msg, (ReadAt f2 512 0).2 ≠ Some (io_failure msg)) ->
  strings_ToLower lib (filepath_Ext (Name f1)) ≠ "" ->
  mime_TypeByExtension lib (strings_ToLower lib (filepath_Ext (Name f1))) ≠ "" ->
  (detectFileCategory lib f1).1
  = mime_TypeByExtension lib (strings_ToLower lib (filepath_Ext (Name f1)))
  /\ detectFileCategory lib f1 = detectFileCategory lib f2.
Proof.
  intros Hname Hok1 Hok2 Hext Hmap.
  rewrite (detectFileCategory_read lib f1 Hok1), (detectFileCategory_read lib f2 Hok2).
  rewrite <- Hname.
  destruct (String.eqb_spec (strings_ToLower lib (filepath_Ext (Name f1))) "");
    [contradiction|].
  destruct (String.eqb_spec
              (mime_TypeByExtension lib (strings_ToLower lib (filepath_Ext (Name f1)))) "");
    [contradiction|].
  split; reflexivity.
Qed.

(** Plain text and a PNG image, both named [photo.png]. *)
Lemma extension_decides_mime_witness :
  Name text_named_png = Name small_photo
  /\ mime_TypeByExtension hostLib (strings_ToLower hostLib (filepath_Ext (Name text_named_png)))
     = "image/png"
  /\ detectFileCategory hostLib text_named_png = detectFileCategory hostLib small_photo.
Proof.
  split; [reflexivity|]. split; [vm_compute; reflexivity|].
  apply (extension_decides_mime hostLib text_named_png small_photo eq_refl).
  - intros msg. vm_compute. discriminate.
  - intros msg. vm_compute. discriminate.
  - vm_compute. discriminate.
  - vm_compute. discriminate.
Defined.

(** ** The default tradeoff *)

(** X19.  A tradeoff that, lowered and trimmed, is none of speed, ratio and
    balanced gets the result of the tradeoff balanced (on a library that
    leaves the word balanced as it is). *)
Theorem unknown_tradeoff_is_balanced (lib : GoLib) (encOrder compOrder : list string)
    (f : File) (lastUsedHours : Z) (attention : float) (sizeBytes : Z) (prefs : Prefs) :
  (strings_TrimSpace lib (strings_ToLower lib (Tradeoff prefs)))
    ∉ ["speed"; "ratio"; "balanced"] ->
  strings_TrimSpace lib (strings_ToLower lib "balanced") = "balanced" ->
  RecommendAlgorithms lib encOrder compOrder (Some f) lastUsedHours attention sizeBytes prefs
  = RecommendAlgorithms lib encOrder compOrder (Some f) lastUsedHours attention sizeBytes
      {| Tradeoff := "balanced"; AssumeAESNI := AssumeAESNI prefs;
         ForceDetectExt := ForceDetectExt prefs |}.
Proof.
  intros Hunknown Hbal. apply RecommendAlgorithms_signals. unfold preprocess.
  destruct (detectFileCategory lib f).
  assert (normTradeoff lib prefs = "balanced") as ->.
  { unfold normTradeoff.
    set (t := strings_TrimSpace lib (strings_ToLower lib (Tradeoff prefs))) in *.
    destruct (String.eqb_spec t "speed") as [E|_]; [rewrite E in Hunknown|].
    { exfalso. apply Hunknown. left. }
    destruct (String.eqb_spec t "ratio") as [E|_]; [rewrite E in Hunknown|].
    { exfalso. apply Hunknown. right; left. }
    destruct (String.eqb_spec t "balanced") as [E|_]; [exact E|reflexivity]. }
  unfold normTradeoff. cbn [Tradeoff AssumeAESNI]. rewrite Hbal. reflexivity.
Qed.

(** The README's call with the tradeoff "fastest". *)
Lemma unknown_tradeoff_is_balanced_witness :
  ((strings_TrimSpace hostLib (strings_ToLower hostLib (Tradeoff fastest_prefs)))
     ∉ ["speed"; "ratio"; "balanced"])
  /\ Compression (RecommendAlgorithms hostLib encCandidates compCandidates (Some readme_file)
                    48 0.8 0 fastest_prefs).1 = "zstd".
Proof.
  assert ((strings_TrimSpace hostLib (strings_ToLower hostLib (Tradeoff fastest_prefs)))
            ∉ ["speed"; "ratio"; "balanced"]) as Hu.
  { intros H. vm_compute in H. apply elem_of_cons in H as [H|H]; [discriminate|].
    apply elem_of_cons in H as [H|H]; [discriminate|].
    apply elem_of_cons in H as [H|H]; [discriminate|inversion H]. }
  split; [exact Hu|].
  rewrite (unknown_tradeoff_is_balanced hostLib encCandidates compCandidates readme_file
             48 0.8 0 fastest_prefs Hu eq_refl).
  vm_compute. reflexivity.
Defined.
